(** * blog-editor: the text cache, the frontmatter codec, the preview path
    resolver, the autosaver and the file manager

    A shallow embedding of the parts of [blog_editor.py] and
    [file_manager.py] that carry the editor's text through the cache, the
    frontmatter block and the recovery files, with the properties of the
    design document stated and settled on it.

    Conventions.
    - A Python [str] is a sequence of Unicode code points: [list N].
    - A Python value that may be [None] is an [option]; a dict with string
      keys is a [gmap]; a directory is a [gmap] from file names to entries.
    - A method that may raise returns a [result].
    - What the code takes from outside the repository (the MD5 digest, the
      YAML library, [str.isalpha], the clock, the outcome of a file write)
      is a parameter of the definition that uses it.
    - A [disk] handed to a function that writes maps a path to the text
      written there; a [disk] handed to a function that only reads maps a
      path to the text [read()] returns. [io.read_text] leads from the first
      to the second. *)

From Stdlib Require Import NArith ZArith String Ascii.
From Stdlib Require Import DecimalString DecimalNat.
From stdpp Require Import gmap strings list sorting.

Open Scope N_scope.

(** ** Python strings *)

Abbreviation text := (list N).

(** An ASCII literal of the source as a sequence of code points. *)
Fixpoint py (s : string) : text :=
match s with
| EmptyString => []
| String a s' => N_of_ascii a :: py s'
end.
Arguments py _%_string.

(** The line feed, [\n]. *)
Definition nl : text := [10].

Module Py.

(** [str.isspace] of one character: the code points CPython's
    [_PyUnicode_IsWhitespace] accepts. *)
Definition isspace (c : N) : bool :=
  ((9 <=? c) && (c <=? 13)) || ((28 <=? c) && (c <=? 32)) ||
  (c =? 133) || (c =? 160) || (c =? 5760) ||
  ((8192 <=? c) && (c <=? 8202)) || (c =? 8232) || (c =? 8233) ||
  (c =? 8239) || (c =? 8287) || (c =? 12288).

(** [s.startswith(p)] *)
Fixpoint startswith (p s : text) : bool :=
match p, s with
| [], _ => true
| _ :: _, [] => false
| a :: p', b :: s' => (a =? b) && startswith p' s'
end.

(** [s.endswith(p)] *)
Definition endswith (p s : text) : bool := startswith (reverse p) (reverse s).

(** [s.partition(sep)] when [sep] occurs in [s]: the text before the first
    occurrence and the text after it. [None] when [sep] does not occur. *)
Fixpoint split_once (sep s : text) : option (text * text) :=
if startswith sep s then Some ([], drop (length sep) s)
else match s with
     | [] => None
     | c :: s' =>
       match split_once sep s' with
       | Some (a, b) => Some (c :: a, b)
       | None => None
       end
     end.

(** [sep in s] *)
Definition contains (sep s : text) : bool :=
match split_once sep s with Some _ => true | None => false end.

(** [s.split(sep, maxsplit)] for a non-empty [sep]: at most [maxsplit]
    cuts, at the leftmost occurrences. *)
Fixpoint split (sep : text) (maxsplit : nat) (s : text) : list text :=
match maxsplit with
| O => [s]
| S n =>
  match split_once sep s with
  | Some (a, b) => a :: split sep n b
  | None => [s]
  end
end.

(** [s.lstrip()] *)
Fixpoint lstrip (s : text) : text :=
match s with
| [] => []
| c :: s' => if isspace c then lstrip s' else s
end.

(** [s.rstrip()]: a character is kept when something is kept to its right
    or it is not white space. *)
Fixpoint rstrip (s : text) : text :=
match s with
| [] => []
| c :: s' =>
  match rstrip s' with
  | [] => if isspace c then [] else [c]
  | r => c :: r
  end
end.

(** [s.strip()] *)
Definition strip (s : text) : text := rstrip (lstrip s).

(** [s.split()] with no separator: the maximal runs of characters that are
    not white space. [cur] holds the run being read, reversed. *)
Fixpoint split_ws_from (cur : text) (s : text) : list text :=
match s with
| [] => match cur with [] => [] | _ => [reverse cur] end
| c :: s' =>
  if isspace c
  then match cur with
       | [] => split_ws_from [] s'
       | _ => reverse cur :: split_ws_from [] s'
       end
  else split_ws_from (c :: cur) s'
end.

Definition split_ws (s : text) : list text := split_ws_from [] s.

(** [s.replace(old, new)] for a non-empty [old]: every occurrence, left to
    right, without overlap. [skip] counts the characters of the occurrence
    just replaced that are still to be passed over. *)
Fixpoint replace_from (old new : text) (skip : nat) (s : text) : text :=
match s with
| [] => []
| c :: s' =>
  match skip with
  | S k => replace_from old new k s'
  | O =>
    if startswith old s
    then new ++ replace_from old new (length old - 1) s'
    else c :: replace_from old new 0 s'
  end
end.

Definition replace (old new s : text) : text := replace_from old new 0 s.

(** [sep.join(parts)] *)
Fixpoint join (sep : text) (parts : list text) : text :=
match parts with
| [] => []
| [p] => p
| p :: ps => p ++ sep ++ join sep ps
end.

(** [str(n)] of a non-negative integer. *)
Definition str_of_nat (n : nat) : text :=
  py (NilEmpty.string_of_uint (Nat.to_uint n)).

(** Does [s] begin or end with a white space character? *)
Definition has_outer_space (s : text) : bool :=
  match head s with Some c => isspace c | None => false end
  || match last s with Some c => isspace c | None => false end.

(** Truth value of a string: empty is false. *)
Definition truthy (s : text) : bool :=
match s with [] => false | _ => true end.

End Py.

(** ** Text files

    [open(path, 'w', encoding='utf-8')] and [open(path, 'r',
    encoding='utf-8')] on a POSIX system, where the line separator is [\n]:
    writing stores the characters as they are and raises for a text UTF-8
    cannot encode; reading translates the line ends. *)

Module io.

(** A character UTF-8 encodes: a code point up to U+10FFFF that is not a
    surrogate. *)
Definition scalar_value (c : N) : bool :=
  ((c <? 0xD800) || (0xDFFF <? c)) && (c <=? 0x10FFFF).

(** [t.encode('utf-8')] does not raise. *)
Definition encodable (t : text) : bool := forallb scalar_value t.

(** Universal newlines, the reading mode of [open(path, 'r')]: [\r\n] and
    [\r] come back as [\n]. *)
Fixpoint universal_newlines (s : text) : text :=
match s with
| [] => []
| c :: s' =>
  if c =? 13 then
    match s' with
    | c' :: _ =>
      if c' =? 10 then universal_newlines s' else 10 :: universal_newlines s'
    | [] => [10]
    end
  else c :: universal_newlines s'
end.

(** The files as [read()] returns them, from the files as written. *)
Definition read_text (disk : gmap text text) : gmap text text :=
  universal_newlines <$> disk.

End io.

(** ** Python values that travel through YAML *)

#[warnings="-register-all"]
Inductive pyval :=
| PyNone
| PyStr (s : text)
| PyList (l : list pyval)
| PyDict (d : list (text * pyval)).

(** ** Raised exceptions *)

(** What [FileManager] raises: every exception inside a method is caught
    and raised again as a [FileOperationError]. *)
Inductive error :=
| FileOperationError.

Inductive result (A : Type) :=
| Ok (a : A)
| Raise (e : error).
Arguments Ok {A} a.
Arguments Raise {A} e.

(** ** [os.path] on a POSIX system

    The path functions the editor calls, after CPython's [posixpath] and
    [genericpath]: the separator is [/]. *)

Module os_path.

Definition sep : N := 47.
Definition extsep : N := 46.

(** [s.rfind(c)] for one character; [None] stands for [-1]. *)
Fixpoint rfind (c : N) (s : text) : option nat :=
match s with
| [] => None
| a :: s' =>
  match rfind c s' with
  | Some i => Some (S i)
  | None => if a =? c then Some O else None
  end
end.

(** [s.rfind(c) + 1] *)
Definition after_last (c : N) (s : text) : nat :=
match rfind c s with Some i => S i | None => O end.

(** [s.rstrip(c)] for one character. *)
Fixpoint rstrip_char (c : N) (s : text) : text :=
match s with
| [] => []
| a :: s' =>
  match rstrip_char c s' with
  | [] => if a =? c then [] else [a]
  | r => a :: r
  end
end.

Definition isabs (p : text) : bool := Py.startswith [sep] p.

(** [os.path.join(a, b)] *)
Definition join (a b : text) : text :=
  if Py.startswith [sep] b then b
  else if negb (Py.truthy a) || Py.endswith [sep] a then a ++ b
  else a ++ [sep] ++ b.

(** [os.path.basename(p)] *)
Definition basename (p : text) : text := drop (after_last sep p) p.

(** [os.path.dirname(p)] *)
Definition dirname (p : text) : text :=
  let head := take (after_last sep p) p in
  if Py.truthy head && negb (bool_decide (head = replicate (length head) sep))
  then rstrip_char sep head
  else head.

(** One step of the component loop of [normpath]. *)
Definition normpath_step (initial_slashes : nat) (new_comps : list text)
  (comp : text) : list text :=
  if bool_decide (comp = []) || bool_decide (comp = py ".") then new_comps
  else if negb (bool_decide (comp = py ".."))
          || (bool_decide (initial_slashes = O) && bool_decide (new_comps = []))
          || (match last new_comps with
              | Some c => bool_decide (c = py "..")
              | None => false
              end)
  then new_comps ++ [comp]
  else removelast new_comps.

(** [os.path.normpath(path)] *)
Definition normpath (path : text) : text :=
  if negb (Py.truthy path) then py "."
  else
    let initial_slashes : nat :=
      if Py.startswith [sep] path
      then if Py.startswith (py "//") path && negb (Py.startswith (py "///") path)
           then 2%nat else 1%nat
      else O in
    let comps := Py.split [sep] (length path) path in
    let new_comps := foldl (normpath_step initial_slashes) [] comps in
    let joined := Py.join [sep] new_comps in
    let path' := replicate initial_slashes sep ++ joined in
    if Py.truthy path' then path' else py ".".

(** [os.path.abspath(path)], with [cwd] the value of [os.getcwd()]. *)
Definition abspath (cwd : text) (path : text) : text :=
  normpath (if isabs path then path else join cwd path).

(** [os.path.splitext(p)]: the extension starts at the last dot of the last
    component, unless only dots precede it there. *)
Definition splitext (p : text) : text * text :=
  match rfind extsep p with
  | Some dotIndex =>
    let filenameIndex := after_last sep p in
    if bool_decide (filenameIndex <= dotIndex)%nat
       && existsb (fun c => negb (c =? extsep))
                  (take (dotIndex - filenameIndex) (drop filenameIndex p))
    then (take dotIndex p, drop dotIndex p)
    else (p, [])
  | None => (p, [])
  end.

End os_path.

(** ** [ConfigManager]: the string settings *)

Module ConfigManager.

Definition get (config : gmap string text) (key : string) (default : text)
  : text :=
  match config !! key with Some v => v | None => default end.

End ConfigManager.

(** ** [FileManager]

    [disk] maps a path to the content of the file there: the text written
    for [save_blog], the text read for [import_markdown]. The YAML library
    is a parameter: [yaml_dump] is [yaml.dump(..., allow_unicode=True,
    default_flow_style=False)], [yaml_safe_load] is [yaml.safe_load]; [None]
    means the call raised. The object has no [error_handler] attribute, so
    the [handle_errors] wrapper re-raises what the method raises. *)

Module FileManager.

Section WithYaml.

Variable yaml_dump : pyval -> option text.
Variable yaml_safe_load : text -> option pyval.

(** [_generate_frontmatter] *)
Definition _generate_frontmatter (metadata : pyval) : result text :=
  match yaml_dump metadata with
  | Some s => Ok s
  | None => Raise FileOperationError
  end.

(** The image loop of [save_blog]: each source that exists is copied into
    the article folder and its path is replaced in the content. [None] when
    a copy raises: [shutil.copy2] raises [SameFileError] for a source that
    is its own destination. *)
Fixpoint copy_images (article_folder : text) (images : list (text * text))
  (disk : gmap text text) (content : text)
  : option (gmap text text * text) :=
match images with
| [] => Some (disk, content)
| (src_path, dest_name) :: rest =>
  match disk !! src_path with
  | Some data =>
    let dest_path := os_path.join article_folder dest_name in
    if bool_decide (src_path = dest_path) then None
    else
      copy_images article_folder rest (<[dest_path := data]> disk)
        (Py.replace src_path (py "./" ++ dest_name) content)
  | None => copy_images article_folder rest disk content
  end
end.

(** [save_blog]: the folder path and the disk after the write. Directories
    are not files of [disk], so [os.makedirs] leaves it as it is.
    [write_ok] tells whether the operating system lets the calls through:
    creating the folder, copying into it, opening and writing [index.md].
    Whatever is raised inside the method is raised again as a
    [FileOperationError]. *)
Definition save_blog (write_ok : bool) (config : gmap string text)
  (disk : gmap text text) (folder_name content : text) (metadata : pyval)
  (images : list (text * text)) : result (text * gmap text text) :=
  let save_path := ConfigManager.get config "save_path" [] in
  if negb (Py.truthy save_path) then Raise FileOperationError
  else if negb write_ok then Raise FileOperationError
  else
    let article_folder := os_path.join save_path folder_name in
    match copy_images article_folder images disk content with
    | None => Raise FileOperationError
    | Some (disk1, content1) =>
      match _generate_frontmatter metadata with
      | Raise _ => Raise FileOperationError
      | Ok frontmatter =>
        let file_path := os_path.join article_folder (py "index.md") in
        let md :=
          py "---" ++ nl ++ frontmatter ++ py "---" ++ nl ++ nl ++ content1 in
        if io.encodable md then Ok (article_folder, <[file_path := md]> disk1)
        else Raise FileOperationError
      end
    end.

(** [import_markdown]: the body and the metadata ([PyNone] when there is
    none). *)
Definition import_markdown (disk : gmap text text) (file_path : text)
  : result (text * pyval) :=
  match disk !! file_path with
  | None => Raise FileOperationError
  | Some content =>
    if Py.startswith (py "---") content then
      match Py.split (py "---") 2 content with
      | [_; frontmatter; content'] =>
        match yaml_safe_load frontmatter with
        | Some metadata => Ok (Py.strip content', metadata)
        | None => Ok (Py.strip (frontmatter ++ py "---" ++ content'), PyNone)
        end
      | _ => Raise FileOperationError
      end
    else Ok (Py.strip content, PyNone)
  end.

End WithYaml.

(** The text [d] of a frontmatter block can stand between two delimiters:
    no [---] begins inside it, not even one that runs into the closing
    delimiter. *)
Definition delimiter_free (d : text) : bool :=
  negb (Py.contains (py "---") (d ++ py "--")).

(** [f"{name}_{counter}{ext}"] *)
Definition numbered (name ext : text) (counter : nat) : text :=
  name ++ py "_" ++ Py.str_of_nat counter ++ ext.

(** The loop of [ensure_unique_filename]. [existing] is the set of paths for
    which [os.path.exists] holds. [fuel] bounds the number of further
    rounds. *)
Fixpoint probe_filenames (existing : gset text) (folder_path name ext : text)
  (fuel : nat) (counter : nat) (new_filename : text) : option text :=
if bool_decide (os_path.join folder_path new_filename ∈ existing) then
  match fuel with
  | O => None
  | S fuel' =>
    probe_filenames existing folder_path name ext fuel' (S counter)
      (numbered name ext counter)
  end
else Some new_filename.

(** [ensure_unique_filename]: one round more than there are existing
    paths. *)
Definition ensure_unique_filename (existing : gset text)
  (folder_path filename : text) : option text :=
  let '(name, ext) := os_path.splitext filename in
  probe_filenames existing folder_path name ext (S (size existing)) 1 filename.

End FileManager.

(** ** [TextCache]

    The cache directory maps a file name to what is there. A regular file
    carries its modification time and, when its content parses as the JSON
    object [save_to_cache] writes, that object. Times are integers (clock
    ticks). [md5_hexdigest t] stands for
    [hashlib.md5(t.encode('utf-8')).hexdigest()], which is there for a text
    UTF-8 encodes ([io.encodable]); for another text [encode] raises inside
    the [try] of [save_to_cache], which then returns [None]. *)

Module TextCache.

Record cache_json := CacheJson { chunks : list text; timestamp : Z }.

Inductive dirent :=
| RegularFile (mtime : Z) (data : option cache_json)
| Subdirectory (mtime : Z).

Definition cache_size : nat := 10.
Definition chunk_size : nat := N.to_nat 50000.

(** [range(0, stop, step)] *)
Definition range_step (stop step : nat) : list nat :=
  (fun k => k * step)%nat <$> seq 0 ((stop + step - 1) / step)%nat.

(** [[text[i:i + size] for i in range(0, len(text), size)]] *)
Definition chunk_text (size : nat) (t : text) : list text :=
  (fun i => take size (drop i t)) <$> range_step (length t) size.

(** The regular files of the directory with their modification times, in
    the order [os.listdir] gives them. *)
Definition listed_files (dir : gmap text dirent) : list (text * Z) :=
  omap (fun e : text * dirent =>
          match e.2 with
          | RegularFile mtime _ => Some (e.1, mtime)
          | Subdirectory _ => None
          end) (map_to_list dir).

(** The order of [files.sort(key=lambda x: x[1], reverse=True)]. *)
Definition newer_first (a b : text * Z) : Prop := (b.2 <= a.2)%Z.

#[global] Instance newer_first_dec a b : Decision (newer_first a b).
Proof. unfold newer_first. apply _. Defined.

(** [_cleanup_old_cache] *)
Definition _cleanup_old_cache (dir : gmap text dirent) : gmap text dirent :=
  let files := merge_sort newer_first (listed_files dir) in
  foldl (fun d (f : text * Z) => delete f.1 d) dir (drop cache_size files).

Section WithDigest.

Variable md5_hexdigest : text -> text.

Definition get_cache_key (t : text) : text := md5_hexdigest t.

(** [save_to_cache]: the returned key ([None] when an exception was caught)
    and the directory afterwards. [write_ok] tells whether opening and
    writing the file succeed; [now] is the clock. *)
Definition save_to_cache (write_ok : bool) (now : Z) (t : text)
  (dir : gmap text dirent) : option text * gmap text dirent :=
  let cache_key := get_cache_key t in
  let file_chunks := chunk_text chunk_size t in
  match write_ok, dir !! cache_key with
  | false, _ | _, Some (Subdirectory _) => (None, dir)
  | true, _ =>
    let written :=
      <[cache_key :=
          RegularFile now (Some (CacheJson file_chunks now))]> dir in
    (Some cache_key, _cleanup_old_cache written)
  end.

(** A run of insertions that all write, each with its clock value. *)
Definition save_all (inputs : list (Z * text)) (dir : gmap text dirent)
  : gmap text dirent :=
  foldl (fun d (i : Z * text) => (save_to_cache true i.1 i.2 d).2) dir inputs.

End WithDigest.

(** [load_from_cache]: a [None] key makes [os.path.join] raise, which is
    caught like every other failure. *)
Definition load_from_cache (cache_key : option text)
  (dir : gmap text dirent) : option text :=
  match cache_key with
  | None => None
  | Some k =>
    match dir !! k with
    | Some (RegularFile _ (Some data)) => Some (concat (chunks data))
    | _ => None
    end
  end.

End TextCache.

(** ** [QTextEdit]: the widget's own text

    What [QTextEdit.toPlainText()] returns after
    [QTextEdit.setPlainText(t)]. Qt builds the document with
    [QTextCursor::insertText], which starts a new block at [\n], [\r\n],
    [\r], U+2029, U+FDD0 and U+FDD1; [QTextDocument::toPlainText] gives each
    block separator as [\n] and replaces U+2028 by [\n] and the no-break
    space U+00A0 by a space. *)

Module QTextEdit.

Definition plain_char (c : N) : N :=
  if (c =? 0x2028) || (c =? 0x2029) || (c =? 0xFDD0) || (c =? 0xFDD1) then 10
  else if c =? 0xA0 then 32
  else c.

Definition plain_text (t : text) : text :=
  plain_char <$> io.universal_newlines t.

(** A character the widget gives back as it got it. *)
Definition kept (c : N) : bool :=
  negb ((c =? 13) || (c =? 0xA0) || (c =? 0x2028) || (c =? 0x2029)
        || (c =? 0xFDD0) || (c =? 0xFDD1)).

End QTextEdit.

(** ** [MarkdownEditor]

    [document] is the text of the [QTextEdit] base class, as its
    [toPlainText] returns it. The character class [isalpha] is [str.isalpha]
    of one character. The reading time, a float, and the labels are left
    out. *)

Module MarkdownEditor.

Record t := Editor {
  text_cache : gmap text TextCache.dirent;
  current_cache_key : option text;
  document : text;
  word_count : nat
}.

(** [toPlainText] *)
Definition toPlainText (e : t) : text :=
  match current_cache_key e with
  | Some k =>
    if Py.truthy k then
      match TextCache.load_from_cache (Some k) (text_cache e) with
      | Some cached_text => cached_text
      | None => document e
      end
    else document e
  | None => document e
  end.

Section WithIsalpha.

Variable isalpha : N -> bool.

(** [len([c for c in text if '\u4e00' <= c <= '\u9fff'])] *)
Definition chinese_count (t : text) : nat :=
  length (List.filter (fun c => (0x4e00 <=? c) && (c <=? 0x9fff)) t).

(** [len([w for w in text.split() if any(c.isalpha() for c in w)])] *)
Definition english_words (t : text) : nat :=
  length (List.filter (fun w => existsb isalpha w) (Py.split_ws t)).

(** [update_statistics] *)
Definition update_statistics (e : t) : t :=
  let txt := toPlainText e in
  Editor (text_cache e) (current_cache_key e) (document e)
         (chinese_count txt + english_words txt).

Section WithDigest.

Variable md5_hexdigest : text -> text.

(** [setPlainText] *)
Definition setPlainText (write_ok : bool) (now : Z) (txt : text) (e : t) : t :=
  let '(key, dir) :=
    TextCache.save_to_cache md5_hexdigest write_ok now txt (text_cache e) in
  update_statistics (Editor dir key (QTextEdit.plain_text txt) (word_count e)).

(** [import_markdown], once the dialog has returned [file_name]: the editor
    afterwards and the metadata parsed, if any. [disk] holds the files as
    read. An exception leaves the editor as it was. [update_metadata] is the
    method of that name of the parent, [None] when
    [hasattr(self.parent(), 'update_metadata')] is false; it returns [false]
    when the call raises, which the bare [except] around the YAML parse
    catches as well. *)
Definition import_markdown_in (update_metadata : option (pyval -> bool))
  (yaml_safe_load : text -> option pyval)
  (disk : gmap text text) (file_name : text) (write_ok : bool) (now : Z)
  (e : t) : t * option pyval :=
  if negb (Py.truthy file_name) then (e, None)
  else
    match disk !! file_name with
    | None => (e, None)
    | Some content =>
      if Py.startswith (py "---") content then
        match Py.split (py "---") 2 content with
        | [_; frontmatter; content'] =>
          let metadata := yaml_safe_load frontmatter in
          let handed_over :=
            match metadata, update_metadata with
            | Some m, Some update => update m
            | Some _, None => true
            | None, _ => false
            end in
          (update_statistics
             (setPlainText write_ok now
                (Py.strip
                   (if handed_over then content'
                    else frontmatter ++ py "---" ++ content')) e),
           metadata)
        | _ => (e, None)
        end
      else
        (update_statistics (setPlainText write_ok now (Py.strip content) e),
         None)
    end.

(** [import_markdown] in the editor of the application, whose parent, a
    plain [QWidget], has no [update_metadata]. *)
Definition import_markdown (yaml_safe_load : text -> option pyval)
  (disk : gmap text text) (file_name : text) (write_ok : bool) (now : Z)
  (e : t) : t * option pyval :=
  if negb (Py.truthy file_name) then (e, None)
  else
    match disk !! file_name with
    | None => (e, None)
    | Some content =>
      if Py.startswith (py "---") content then
        match Py.split (py "---") 2 content with
        | [_; frontmatter; content'] =>
          match yaml_safe_load frontmatter with
          | Some metadata =>
            (update_statistics
               (setPlainText write_ok now (Py.strip content') e),
             Some metadata)
          | None =>
            (update_statistics
               (setPlainText write_ok now
                  (Py.strip (frontmatter ++ py "---" ++ content')) e),
             None)
          end
        | _ => (e, None)
        end
      else
        (update_statistics (setPlainText write_ok now (Py.strip content) e),
         None)
    end.

End WithDigest.

End WithIsalpha.

End MarkdownEditor.

(** ** [BlogEditor]: the form and the preview *)

Module BlogEditor.

Record t := Window {
  content_input : MarkdownEditor.t;
  title_input : text;
  desc_input : text;
  folder_input : text;
  date_input : text;
  tags_list : list text;
  lang_select : text;
  current_color : text;
  image_path : text;
  save_path : text
}.

(** The lazy [.*?] of the image pattern followed by the literal [lit]: the
    shortest run without a line feed after which [lit] stands. *)
Fixpoint lazy_until (lit : text) (s : text) : option (text * text) :=
if Py.startswith lit s then Some ([], drop (length lit) s)
else match s with
     | [] => None
     | c :: s' =>
       if c =? 10 then None
       else match lazy_until lit s' with
            | Some (a, b) => Some (c :: a, b)
            | None => None
            end
     end.

(** A match of [!\[(.*?)\]\((.*?)\)] at the start of [s]: the two groups
    and the length of the match. When a closing parenthesis follows some
    later [](] on the line it also follows the first one, so the first [](]
    decides. *)
Definition match_image (s : text) : option (text * text * nat) :=
  if Py.startswith (py "![") s then
    match lazy_until (py "](") (drop 2 s) with
    | Some (alt, r) =>
      match lazy_until (py ")") r with
      | Some (path, _) => Some (alt, path, (length alt + length path + 5)%nat)
      | None => None
      end
    | None => None
    end
  else None.

(** [re.sub(pattern, repl, md)] for the image pattern. *)
Fixpoint re_sub_image (repl : text -> text -> text) (skip : nat) (md : text)
  : text :=
match md with
| [] => []
| c :: md' =>
  match skip with
  | S k => re_sub_image repl k md'
  | O =>
    match match_image md with
    | Some (alt, path, len) => repl alt path ++ re_sub_image repl (len - 1) md'
    | None => c :: re_sub_image repl 0 md'
    end
  end
end.

Section Preview.

(** The value of [os.getcwd()]. *)
Variable cwd : text.

(** [replace_path] of [update_preview], on the two groups of a match. *)
Definition replace_path (w : t) (alt path : text) : text :=
  if Py.startswith (py "http://") path || Py.startswith (py "https://") path
     || Py.startswith (py "file:///") path
  then py "![" ++ alt ++ py "](" ++ path ++ py ")"
  else
    let abs_path :=
      if Py.startswith (py "./") path || Py.startswith (py "../") path
      then
        let base_path := os_path.dirname (save_path w) in
        os_path.abspath cwd (os_path.join base_path path)
      else os_path.abspath cwd path in
    let url_path :=
      py "file:///" ++ Py.replace [os_path.sep] (py "/") abs_path in
    py "![" ++ alt ++ py "](" ++ url_path ++ py ")".

(** [path_to_url] of [update_preview]: the markdown handed to the
    renderer. *)
Definition path_to_url (w : t) (md : text) : text :=
  re_sub_image (replace_path w) 0 md.

Definition preview_markdown (w : t) : text :=
  path_to_url w (MarkdownEditor.toPlainText (content_input w)).

End Preview.

(** The references [replace_path] returns as they are. *)
Definition is_url (path : text) : bool :=
  Py.startswith (py "http://") path || Py.startswith (py "https://") path
  || Py.startswith (py "file:///") path.

(** [re.findall] for the image pattern: the two groups of every match, left
    to right. *)
Fixpoint image_matches (skip : nat) (md : text) : list (text * text) :=
match md with
| [] => []
| c :: md' =>
  match skip with
  | S k => image_matches k md'
  | O =>
    match match_image md with
    | Some (alt, path, len) => (alt, path) :: image_matches (len - 1) md'
    | None => image_matches 0 md'
    end
  end
end.

(** [re.findall(r'!\[.*?\]\((.*?)\)', content)]: the paths. *)
Definition re_findall_image (content : text) : list text :=
  (image_matches 0 content).*2.

Definition set_tags (tags : list text) (w : t) : t :=
  Window (content_input w) (title_input w) (desc_input w) (folder_input w)
    (date_input w) tags (lang_select w) (current_color w) (image_path w)
    (save_path w).

(** [add_tag]: the window and the text left in the tag field. *)
Definition add_tag (tag_input : text) (w : t) : t * text :=
  let tag := Py.strip tag_input in
  if Py.truthy tag && negb (bool_decide (tag ∈ tags_list w))
  then (set_tags (tags_list w ++ [tag]) w, [])
  else (w, tag_input).

(** [shutil.copy2(src, dst)] into an existing directory: [None] when it
    raises, for a missing source or for the same path twice. *)
Definition copy2 (disk : gmap text text) (src dst : text)
  : option (gmap text text) :=
  match disk !! src with
  | Some data =>
    if bool_decide (src = dst) then None else Some (<[dst := data]> disk)
  | None => None
  end.

(** The image loop of [save_blog]: remote images are skipped, a copy that
    fails leaves the reference as it is. *)
Fixpoint copy_body_images (article_folder : text) (image_paths : list text)
  (disk : gmap text text) (content : text) : gmap text text * text :=
match image_paths with
| [] => (disk, content)
| img_path :: rest =>
  if Py.startswith (py "http://") img_path
     || Py.startswith (py "https://") img_path
  then copy_body_images article_folder rest disk content
  else
    let img_filename := os_path.basename img_path in
    let target_path := os_path.join article_folder img_filename in
    match copy2 disk img_path target_path with
    | Some disk' =>
      copy_body_images article_folder rest disk'
        (Py.replace img_path (py "./" ++ img_filename) content)
    | None => copy_body_images article_folder rest disk content
    end
end.

(** The two characters of the first language of the selector, U+4E2D
    U+6587. *)
Definition chinese : text := [0x4e2d; 0x6587].

(** The [src] entry of the frontmatter. *)
Definition hero_src (w : t) : text :=
  if Py.truthy (image_path w)
  then py "./" ++ os_path.basename (image_path w) else [].

(** The lines [save_blog] writes between the two delimiters. *)
Definition frontmatter_lines (w : t) : text :=
  py "title: '" ++ title_input w ++ py "'" ++ nl
  ++ py "publishDate: " ++ date_input w ++ nl
  ++ py "description: '" ++ desc_input w ++ py "'" ++ nl
  ++ py "tags:" ++ nl
  ++ concat ((fun tag => py "  - " ++ tag ++ nl) <$> tags_list w)
  ++ py "language: '"
  ++ (if bool_decide (lang_select w = chinese) then chinese
      else py "English") ++ py "'" ++ nl
  ++ py "heroImage: { src: '" ++ hero_src w ++ py "', color: '"
  ++ current_color w ++ py "' }" ++ nl.

Inductive save_status :=
| NeedFolderName
| SavedTo (article_folder : text)
| SaveFailed.

(** [save_blog]: the disk afterwards and the message of the status bar.
    Creating the folder and writing [index.md] are taken to succeed; the
    copies succeed or fail as the disk has it. *)
Definition save_blog (disk : gmap text text) (w : t)
  : gmap text text * save_status :=
  let folder_name := Py.strip (folder_input w) in
  if negb (Py.truthy folder_name) then (disk, NeedFolderName)
  else
    let article_folder := os_path.join (save_path w) folder_name in
    let content := MarkdownEditor.toPlainText (content_input w) in
    let image_paths := re_findall_image content in
    let '(disk1, content1) :=
      copy_body_images article_folder image_paths disk content in
    let md_content :=
      py "---" ++ nl ++ frontmatter_lines w ++ py "---" ++ nl ++ nl
      ++ content1 in
    let file_path := os_path.join article_folder (py "index.md") in
    if Py.truthy (image_path w) then
      let target_path :=
        os_path.join article_folder (os_path.basename (image_path w)) in
      match copy2 disk1 (image_path w) target_path with
      | Some disk2 => (<[file_path := md_content]> disk2, SavedTo article_folder)
      | None => (disk1, SaveFailed)
      end
    else (<[file_path := md_content]> disk1, SavedTo article_folder).

End BlogEditor.

(** ** [AutoSaver]

    The recovery directory maps a file name to the time of its last write
    and its content. [fault] tells which write of a tick fails, if any. *)

Module AutoSaver.

Inductive jval :=
| JStr (s : text)
| JList (l : list text).

#[global] Instance jval_eq_dec : EqDecision jval.
Proof. solve_decision. Defined.

Inductive recovery_file :=
| ContentMd (content : text)
| MetadataJson (metadata : gmap string jval).

Record t := Saver {
  last_content : text;
  last_metadata : gmap string jval;
  auto_save_dir : gmap string (Z * recovery_file)
}.

Inductive write_fault := NoFault | ContentWriteFails | MetadataWriteFails.

(** The message shown in the status bar, if any. *)
Inductive status := Quiet | Saved | SaveFailed.

(** [__init__] *)
Definition init (dir : gmap string (Z * recovery_file)) : t := Saver [] ∅ dir.

(** The dict [current_metadata] of [auto_save]. *)
Definition current_metadata (w : BlogEditor.t) : gmap string jval :=
  <["title" := JStr (BlogEditor.title_input w)]>
  (<["description" := JStr (BlogEditor.desc_input w)]>
  (<["folder" := JStr (BlogEditor.folder_input w)]>
  (<["date" := JStr (BlogEditor.date_input w)]>
  (<["tags" := JList (BlogEditor.tags_list w)]>
  (<["language" := JStr (BlogEditor.lang_select w)]>
  (<["color" := JStr (BlogEditor.current_color w)]>
  (<["image_path" := JStr (BlogEditor.image_path w)]> ∅))))))).

(** [auto_save]: the saver afterwards, the files written by this tick in
    order, and the status message. *)
Definition auto_save (fault : write_fault) (now : Z) (w : BlogEditor.t)
  (s : t) : t * list (string * recovery_file) * status :=
  let current_content :=
    MarkdownEditor.toPlainText (BlogEditor.content_input w) in
  let metadata := current_metadata w in
  if bool_decide (current_content ≠ last_content s
                  ∨ metadata ≠ last_metadata s)
  then
    let content_file := "content.md"%string in
    let metadata_file := "metadata.json"%string in
    match fault with
    | ContentWriteFails => (s, [], SaveFailed)
    | MetadataWriteFails =>
      (Saver (last_content s) (last_metadata s)
         (<[content_file := (now, ContentMd current_content)]>
            (auto_save_dir s)),
       [(content_file, ContentMd current_content)], SaveFailed)
    | NoFault =>
      (Saver current_content metadata
         (<[metadata_file := (now, MetadataJson metadata)]>
            (<[content_file := (now, ContentMd current_content)]>
               (auto_save_dir s))),
       [(content_file, ContentMd current_content);
        (metadata_file, MetadataJson metadata)], Saved)
    end
  else (s, [], Quiet).

(** [try_restore]: the saved content and metadata, when both files are
    there and the metadata file parses. The directory holds the files as
    written; [content.md] is read as text, with universal newlines.
    [json_text] gives the text of a JSON file. *)
Definition try_restore (json_text : gmap string jval -> text) (s : t)
  : option (text * gmap string jval) :=
  match auto_save_dir s !! "content.md"%string,
        auto_save_dir s !! "metadata.json"%string with
  | Some (_, content_file), Some (_, MetadataJson metadata) =>
    Some (io.universal_newlines
            match content_file with
            | ContentMd content => content
            | MetadataJson m => json_text m
            end, metadata)
  | _, _ => None
  end.

End AutoSaver.

(** ** [ImageCompressor]: the quality loop

    [size_at q] is the size of the file [img.save(output_path, 'JPEG',
    quality=q, optimize=True)] leaves. *)

Module ImageCompressor.

Definition max_file_size : Z := 500 * 1024.

Section WithEncoder.

Variable size_at : Z -> Z.

(** [while os.path.getsize(output_path) > self.max_file_size and
    self.quality > 30: self.quality -= 5; img.save(...)] *)
Fixpoint lower_quality (fuel : nat) (quality : Z) : option Z :=
if (max_file_size <? size_at quality)%Z && (30 <? quality)%Z then
  match fuel with
  | O => None
  | S fuel' => lower_quality fuel' (quality - 5)%Z
  end
else Some quality.

(** [compress_image] on a readable image: whether it was compressed, and
    [self.quality] afterwards. *)
Definition compress_image (input_size : Z) (quality : Z)
  : option (bool * Z) :=
  if (input_size <=? max_file_size)%Z then Some (false, quality)
  else
    match lower_quality (Z.to_nat (quality - 30)) quality with
    | Some q => Some (true, q)
    | None => None
    end.

End WithEncoder.

End ImageCompressor.

(** ** [ConfigManager]: the recent files

    [add_recent_file] on the two settings it reads, at the types the
    defaults give them: a list of paths and an integer. *)

Module RecentFiles.




End RecentFiles.

(** ** Small instances of the outside world

    Used where a statement is run on concrete data. *)

(** A YAML reader and writer for block mappings of plain one-line scalars,
    [key: value] on each line. *)
Module FlatYaml.

Fixpoint dump_entries (d : list (text * pyval)) : option text :=
match d with
| [] => Some []
| (k, PyStr v) :: d' =>
  match dump_entries d' with
  | Some s => Some (k ++ py ": " ++ v ++ nl ++ s)
  | None => None
  end
| _ => None
end.

Definition dump (v : pyval) : option text :=
  match v with
  | PyDict (e :: d) => dump_entries (e :: d)
  | _ => None
  end.

Fixpoint load_lines (lines : list text) : option (list (text * pyval)) :=
match lines with
| [] => Some []
| line :: rest =>
  match line with
  | [] => load_lines rest
  | _ =>
    match Py.split_once (py ": ") line, load_lines rest with
    | Some (k, v), Some d => Some ((k, PyStr v) :: d)
    | _, _ => None
    end
  end
end.

Definition load (s : text) : option pyval :=
  match load_lines (Py.split nl (length s) s) with
  | Some [] => Some PyNone
  | Some d => Some (PyDict d)
  | None => None
  end.

End FlatYaml.

(** Sample documents. *)
Definition sample_metadata : pyval := PyDict [(py "title", PyStr (py "Hi"))].

Definition sample_post : text :=
  py "---" ++ nl ++ py "title: Hi" ++ nl ++ py "---" ++ nl ++ nl
  ++ py "Body text" ++ nl.

Definition malformed_post : text :=
  py "---" ++ nl ++ py "[" ++ nl ++ py "---" ++ nl ++ py "body".

(** A cache directory with eleven files, named [0] to [10] and written at
    the times 0 to 10. *)
Definition sample_cache : gmap text TextCache.dirent :=
  list_to_map
    ((fun k => (Py.str_of_nat k, TextCache.RegularFile (Z.of_nat k) None))
       <$> seq 0 11).

(** The text of the word-count example: two ideographs, U+4F60 and U+597D,
    then [ hello world]. *)
Definition sample_mixed : text := [0x4f60; 0x597d] ++ py " hello world".

(** A window whose save path is [/articles/post1]. *)
Definition sample_window : BlogEditor.t :=
  BlogEditor.Window (MarkdownEditor.Editor ∅ None (py "draft") 0)
    (py "Title") [] (py "post1") (py "2024-01-01") [py "a"] (py "English")
    (py "#FFFFFF") [] (py "/articles/post1").

(** A stand-in for the digest: the decimal sum of the code points. *)
Definition sum_digest (t : text) : text :=
  py (NilEmpty.string_of_uint (N.to_uint (foldr N.add 0 t))).

(** A part of [str.isalpha]: the ASCII letters and the ideographs
    U+4E00..U+9FA5. *)
Definition isalpha_ascii_cjk (c : N) : bool :=
  ((65 <=? c) && (c <=? 90)) || ((97 <=? c) && (c <=? 122))
  || ((0x4e00 <=? c) && (c <=? 0x9fa5)).

(** * Properties *)

(** ** Python strings *)

Section PyFacts.

Lemma startswith_app p s : Py.startswith p (p ++ s) = true.
Proof.
  induction p as [|a p IH]; simpl; [done|].
  by rewrite N.eqb_refl, IH.
Qed.

Lemma split_once_unfold sep s :
  Py.split_once sep s =
  if Py.startswith sep s then Some ([], drop (length sep) s)
  else match s with
       | [] => None
       | c :: s' =>
         match Py.split_once sep s' with
         | Some (a, b) => Some (c :: a, b)
         | None => None
         end
       end.
Proof. by destruct s. Qed.

Lemma split_once_prefix sep s : Py.split_once sep (sep ++ s) = Some ([], s).
Proof.
  rewrite split_once_unfold, startswith_app. by rewrite drop_app_length.
Qed.

(** What [split_once] returns are the two sides of an occurrence. *)
Lemma split_once_app sep s a b :
  Py.split_once sep s = Some (a, b) -> s = a ++ sep ++ b.
Proof.
  revert a b. induction s as [|c s IH]; intros a b.
  - destruct sep; simpl; [|done]. by intros [= <- <-].
  - cbn [Py.split_once]. destruct (Py.startswith sep (c :: s)) eqn:Hs.
    + intros [= <- <-]. simpl. clear IH. revert Hs.
      generalize (c :: s). clear. induction sep as [|x sep IH]; intros l Hs.
      * by rewrite drop_0.
      * destruct l as [|y l]; [done|]. simpl in Hs.
        apply andb_true_iff in Hs as [Hxy Hs]. apply N.eqb_eq in Hxy as ->.
        simpl. f_equal. by apply IH.
    + destruct (Py.split_once sep s) as [[a' b']|]; [|done].
      intros [= <- <-]. simpl. f_equal. by apply IH.
Qed.

Lemma lstrip_length s : (length (Py.lstrip s) <= length s)%nat.
Proof.
  induction s as [|c s IH]; simpl; [lia|].
  destruct (Py.isspace c); simpl; lia.
Qed.

Lemma rstrip_length s : (length (Py.rstrip s) <= length s)%nat.
Proof.
  induction s as [|c s IH]; simpl; [lia|].
  destruct (Py.rstrip s); [destruct (Py.isspace c)|]; simpl in *; lia.
Qed.

Lemma strip_length s : (length (Py.strip s) <= length s)%nat.
Proof.
  unfold Py.strip. pose proof (rstrip_length (Py.lstrip s)).
  pose proof (lstrip_length s). lia.
Qed.

Lemma lstrip_head s c : head (Py.lstrip s) = Some c -> Py.isspace c = false.
Proof.
  induction s as [|a s IH]; simpl; [done|].
  destruct (Py.isspace a) eqn:Ha; [done|]. simpl. by intros [= <-].
Qed.

Lemma rstrip_head s c : head (Py.rstrip s) = Some c -> head s = Some c.
Proof.
  destruct s as [|a s]; simpl; [done|].
  destruct (Py.rstrip s); [destruct (Py.isspace a)|]; by simpl.
Qed.

Lemma rstrip_last s c : last (Py.rstrip s) = Some c -> Py.isspace c = false.
Proof.
  induction s as [|a s IH]; simpl; [done|].
  destruct (Py.rstrip s) as [|b r].
  - destruct (Py.isspace a) eqn:Ha; [done|]. simpl. by intros [= <-].
  - intros H. apply IH. by rewrite <- H.
Qed.

(** A stripped text neither begins nor ends with white space. *)
Lemma strip_no_outer_space s : Py.has_outer_space (Py.strip s) = false.
Proof.
  unfold Py.has_outer_space, Py.strip. apply orb_false_iff. split.
  - destruct (head (Py.rstrip (Py.lstrip s))) as [c|] eqn:Hh; [|done].
    apply rstrip_head in Hh. by apply lstrip_head in Hh.
  - destruct (last (Py.rstrip (Py.lstrip s))) as [c|] eqn:Hl; [|done].
    by apply rstrip_last in Hl.
Qed.

(** Stripping leaves alone a text without white space at its ends. *)
Lemma rstrip_id s :
  match last s with Some c => Py.isspace c | None => false end = false ->
  Py.rstrip s = s.
Proof.
  induction s as [|a s IH]; [done|].
  destruct s as [|b s].
  - simpl. by intros ->.
  - intros H. change (last (a :: b :: s)) with (last (b :: s)) in H.
    change (Py.rstrip (a :: b :: s))
      with (match Py.rstrip (b :: s) with
            | [] => if Py.isspace a then [] else [a]
            | r => a :: r
            end).
    by rewrite (IH H).
Qed.

Lemma strip_id s : Py.has_outer_space s = false -> Py.strip s = s.
Proof.
  unfold Py.has_outer_space, Py.strip. intros [Hh Hl]%orb_false_iff.
  destruct s as [|a s]; [done|]. simpl in Hh. cbn [Py.lstrip]. rewrite Hh.
  by apply rstrip_id.
Qed.

Lemma strip_idemp s : Py.strip (Py.strip s) = Py.strip s.
Proof. apply strip_id, strip_no_outer_space. Qed.

End PyFacts.

(** ** Text files *)

Section TextFileFacts.

Lemma universal_newlines_cons (c : N) (s : text) :
  c <> 13 ->
  io.universal_newlines (c :: s) = c :: io.universal_newlines s.
Proof. intros H%N.eqb_neq. cbn [io.universal_newlines]. by rewrite H. Qed.

(** Reading translates two texts written one after the other piece by
    piece, unless a line end could straddle the seam. *)
Lemma universal_newlines_app (a b : text) :
  head b <> Some 10 ->
  io.universal_newlines (a ++ b)
  = io.universal_newlines a ++ io.universal_newlines b.
Proof.
  intros Hb. induction a as [|c a IH]; [done|].
  cbn [app io.universal_newlines]. destruct (c =? 13) eqn:Hc.
  - destruct a as [|c' a].
    + cbn [app]. destruct b as [|c' b]; [done|].
      destruct (c' =? 10) eqn:Hc'; [|done].
      apply N.eqb_eq in Hc' as ->. by destruct Hb.
    + cbn [app]. cbn [app] in IH. destruct (c' =? 10); by rewrite IH.
  - by rewrite IH.
Qed.

Lemma universal_newlines_id (s : text) :
  13 ∉ s -> io.universal_newlines s = s.
Proof.
  induction s as [|c s IH]; [done|]. intros [Hc Hs]%not_elem_of_cons.
  rewrite universal_newlines_cons by done. by rewrite IH.
Qed.

(** No carriage return is left in a text that was read. *)
Lemma universal_newlines_no_cr (s : text) : 13 ∉ io.universal_newlines s.
Proof.
  induction s as [|c s IH]; [apply not_elem_of_nil|].
  cbn [io.universal_newlines]. destruct (c =? 13) eqn:Hc.
  - destruct s as [|c' s]; [by apply not_elem_of_cons; split;
                               [|apply not_elem_of_nil]|].
    destruct (c' =? 10); [done|]. by apply not_elem_of_cons.
  - apply not_elem_of_cons. split; [|done]. intros <-. done.
Qed.

Lemma encodable_app (a b : text) :
  io.encodable (a ++ b) = io.encodable a && io.encodable b.
Proof. apply forallb_app. Qed.

End TextFileFacts.

(** ** The frontmatter block: [FileManager.save_blog] and
    [FileManager.import_markdown] *)

Ltac py_eval :=
  repeat match goal with
         | |- context [py ?s] =>
           let v := eval vm_compute in (py s) in change (py s) with v
         | |- context [nl] => change nl with [10]
         end.

Section FrontmatterFacts.

Variable yaml_dump : pyval -> option text.
Variable yaml_safe_load : text -> option pyval.

Lemma contains_cons_false sep c s :
  Py.contains sep (c :: s) = false ->
  Py.startswith sep (c :: s) = false /\ Py.contains sep s = false.
Proof.
  unfold Py.contains. rewrite split_once_unfold.
  destruct (Py.startswith sep (c :: s)); [done|].
  by destruct (Py.split_once sep s) as [[??]|].
Qed.

(** The closing delimiter is the first occurrence after a block that is
    free of delimiters. *)
Lemma split_once_closing x y :
  Py.contains (py "---") (x ++ py "--") = false ->
  Py.split_once (py "---") (x ++ py "---" ++ y) = Some (x, y).
Proof.
  induction x as [|c x IH]; intros H.
  - exact (split_once_prefix (py "---") y).
  - apply contains_cons_false in H as [Hs Hc].
    rewrite split_once_unfold.
    assert (Py.startswith (py "---") ((c :: x) ++ py "---" ++ y) = false)
      as ->.
    { revert Hs. py_eval. destruct x as [|a [|b x]]; simpl; try done. }
    change ((c :: x) ++ py "---" ++ y) with (c :: (x ++ py "---" ++ y)).
    cbv iota. by rewrite (IH Hc).
Qed.

Lemma delimiter_free_block d y :
  FileManager.delimiter_free d = true ->
  Py.split_once (py "---") (nl ++ d ++ py "---" ++ y) = Some (nl ++ d, y).
Proof.
  unfold FileManager.delimiter_free. intros H%negb_true_iff.
  rewrite (app_assoc nl d). apply split_once_closing.
  rewrite <- app_assoc. revert H. unfold Py.contains.
  rewrite (split_once_unfold _ (nl ++ _)). py_eval. simpl.
  by destruct (Py.split_once _ _) as [[??]|].
Qed.

(** The three parts [import_markdown] unpacks, when the document has them. *)
Lemma split_frontmatter content a f c :
  Py.split (py "---") 2 content = [a; f; c] ->
  content = a ++ py "---" ++ f ++ py "---" ++ c.
Proof.
  cbn [Py.split].
  destruct (Py.split_once (py "---") content) as [[a' r]|] eqn:H1; [|done].
  destruct (Py.split_once (py "---") r) as [[f' c']|] eqn:H2; [|done].
  intros [= <- <- <-].
  apply split_once_app in H1 as ->. by apply split_once_app in H2 as ->.
Qed.

(** C9. Whatever [import_markdown] returns as the body has been stripped:
    it neither begins nor ends with white space, on each of the three
    returning paths (block parsed, block not parsed, no block). *)
Theorem import_markdown_body_stripped disk file_path body metadata :
  FileManager.import_markdown yaml_safe_load disk file_path
    = Ok (body, metadata) ->
  Py.has_outer_space body = false /\ Py.strip body = body.
Proof.
  unfold FileManager.import_markdown.
  destruct (disk !! file_path) as [content|]; [|done].
  destruct (Py.startswith (py "---") content).
  - destruct (Py.split (py "---") 2 content) as [|? [|f [|c [|??]]]];
      try done.
    destruct (yaml_safe_load f); intros [= <- <-];
      auto using strip_no_outer_space, strip_idemp.
  - intros [= <- <-]. auto using strip_no_outer_space, strip_idemp.
Qed.

(** When the block does not parse, the body is made of the block, one
    delimiter and the rest: the opening delimiter is not in it, so the body
    is at least three characters shorter than the document. *)
Lemma import_markdown_parse_failure disk file_path content a f c :
  disk !! file_path = Some content ->
  Py.startswith (py "---") content = true ->
  Py.split (py "---") 2 content = [a; f; c] ->
  yaml_safe_load f = None ->
  FileManager.import_markdown yaml_safe_load disk file_path
    = Ok (Py.strip (f ++ py "---" ++ c), PyNone)
  /\ (length (Py.strip (f ++ py "---" ++ c)) + 3 <= length content)%nat.
Proof.
  intros Hd Hs Hsp Hy. unfold FileManager.import_markdown.
  rewrite Hd, Hs, Hsp, Hy. split; [done|].
  pose proof (strip_length (f ++ py "---" ++ c)) as Hl.
  apply split_frontmatter in Hsp as ->.
  revert Hl. rewrite !length_app. py_eval. simpl. lia.
Qed.

(** C3. The document [---\n[\n---\nbody] has a block YAML rejects. The
    body returned for it is [[\n---\nbody]: the opening delimiter of the
    document is gone, so the body is not the document. The editor's own
    import stores the same text. *)
Theorem import_markdown_malformed_block :
  yaml_safe_load (nl ++ py "[" ++ nl) = None ->
  FileManager.import_markdown yaml_safe_load
    {[ py "post.md" := malformed_post ]} (py "post.md")
    = Ok (py "[" ++ nl ++ py "---" ++ nl ++ py "body", PyNone)
  /\ py "[" ++ nl ++ py "---" ++ nl ++ py "body" <> malformed_post
  /\ forall isalpha md5_hexdigest now e,
       MarkdownEditor.document
         (MarkdownEditor.import_markdown isalpha md5_hexdigest yaml_safe_load
            {[ py "post.md" := malformed_post ]} (py "post.md") true now e).1
       = py "[" ++ nl ++ py "---" ++ nl ++ py "body".
Proof.
  intros Hy. split; [|split].
  - unfold FileManager.import_markdown. rewrite lookup_singleton_eq.
    change (Py.split (py "---") 2 malformed_post)
      with [[]; nl ++ py "[" ++ nl; nl ++ py "body"].
    change (Py.startswith (py "---") malformed_post) with true.
    cbv iota. by rewrite Hy.
  - by vm_compute.
  - intros isalpha md5_hexdigest now e.
    unfold MarkdownEditor.import_markdown. rewrite lookup_singleton_eq.
    change (Py.split (py "---") 2 malformed_post)
      with [[]; nl ++ py "[" ++ nl; nl ++ py "body"].
    change (Py.startswith (py "---") malformed_post) with true.
    change (negb (Py.truthy (py "post.md"))) with false.
    cbv iota. rewrite Hy.
    unfold MarkdownEditor.setPlainText.
    destruct (TextCache.save_to_cache _ _ _ _ _) as [key dir]. done.
Qed.

(** What is read from the [index.md] a save has written. *)
Lemma index_md_read (frontmatter content : text) :
  io.universal_newlines
    (py "---" ++ nl ++ frontmatter ++ py "---" ++ nl ++ nl ++ content)
  = py "---" ++ nl ++ io.universal_newlines frontmatter ++ py "---" ++ nl
    ++ nl ++ io.universal_newlines content.
Proof.
  change (py "---" ++ nl ++ frontmatter ++ py "---" ++ nl ++ nl ++ content)
    with (45 :: 45 :: 45 :: 10
          :: (frontmatter ++ 45 :: 45 :: 45 :: 10 :: 10 :: content)).
  rewrite !universal_newlines_cons by done.
  rewrite universal_newlines_app by done.
  by rewrite !universal_newlines_cons by done.
Qed.

(** The import of a file read as [---\n], a block free of delimiters that
    parses, [---\n\n] and a body. *)
Lemma import_markdown_index_md (disk : gmap text text) (file_path : text)
  (frontmatter content : text) (metadata : pyval) :
  disk !! file_path
  = Some (py "---" ++ nl ++ frontmatter ++ py "---" ++ nl ++ nl ++ content) ->
  FileManager.delimiter_free frontmatter = true ->
  yaml_safe_load (nl ++ frontmatter) = Some metadata ->
  FileManager.import_markdown yaml_safe_load disk file_path
  = Ok (Py.strip content, metadata).
Proof.
  intros Hd Hfree Hload. unfold FileManager.import_markdown.
  rewrite Hd, startswith_app. cbn [Py.split].
  by rewrite split_once_prefix, (delimiter_free_block _ _ Hfree), Hload.
Qed.

(** C2, amended. [index.md] is written as text and read back as text, with
    universal newlines. A mapping whose YAML text, so read, is free of
    delimiters and loads back to the mapping comes back from
    [import_markdown] as it went into [save_blog]; the body comes back
    stripped and with its line ends as [\n], so as it went in when it has no
    white space at its ends and no carriage return. The texts written must
    be texts UTF-8 encodes, and the write must go through. *)
Theorem frontmatter_roundtrip config disk folder_name save_path M D B :
  config !! "save_path"%string = Some save_path ->
  save_path <> [] ->
  yaml_dump M = Some D ->
  io.encodable D = true ->
  io.encodable B = true ->
  FileManager.delimiter_free (io.universal_newlines D) = true ->
  yaml_safe_load (nl ++ io.universal_newlines D) = Some M ->
  exists article_folder disk',
    FileManager.save_blog yaml_dump true config disk folder_name B M []
      = Ok (article_folder, disk')
    /\ FileManager.import_markdown yaml_safe_load (io.read_text disk')
         (os_path.join article_folder (py "index.md"))
       = Ok (Py.strip (io.universal_newlines B), M)
    /\ (Py.has_outer_space B = false -> 13 ∉ B ->
        FileManager.import_markdown yaml_safe_load (io.read_text disk')
          (os_path.join article_folder (py "index.md")) = Ok (B, M)).
Proof.
  intros Hc Hne Hd HeD HeB Hfree Hload.
  unfold FileManager.save_blog, ConfigManager.get,
    FileManager._generate_frontmatter.
  rewrite Hc, Hd. destruct save_path as [|c0 sp]; [done|].
  cbn [Py.truthy negb FileManager.copy_images].
  assert (io.encodable
            (py "---" ++ nl ++ D ++ py "---" ++ nl ++ nl ++ B) = true) as ->.
  { rewrite (app_assoc (py "---") nl), !encodable_app, HeD, HeB. done. }
  eexists _, _. split; [done|].
  assert (FileManager.import_markdown yaml_safe_load
            (io.read_text
               (<[os_path.join (os_path.join (c0 :: sp) folder_name)
                    (py "index.md") :=
                    py "---" ++ nl ++ D ++ py "---" ++ nl ++ nl ++ B]> disk))
            (os_path.join (os_path.join (c0 :: sp) folder_name)
               (py "index.md"))
          = Ok (Py.strip (io.universal_newlines B), M)) as Himport.
  { apply (import_markdown_index_md _ _ (io.universal_newlines D));
      [|done..].
    unfold io.read_text.
    by rewrite lookup_fmap, lookup_insert_eq, <- index_md_read. }
  split; [done|]. intros HB Hcr. rewrite Himport.
  by rewrite (universal_newlines_id _ Hcr), (strip_id _ HB).
Qed.

End FrontmatterFacts.

Lemma import_markdown_body_stripped_witness :
  Py.has_outer_space (py "Body text") = false
  /\ Py.strip (py "Body text") = py "Body text".
Proof.
  apply (import_markdown_body_stripped FlatYaml.load
           {[ py "post.md" := sample_post ]} (py "post.md")
           (py "Body text") sample_metadata).
  vm_compute. reflexivity.
Defined.

Lemma import_markdown_malformed_block_witness :
  FileManager.import_markdown FlatYaml.load
    {[ py "post.md" := malformed_post ]} (py "post.md")
  = Ok (py "[" ++ nl ++ py "---" ++ nl ++ py "body", PyNone).
Proof.
  apply (import_markdown_malformed_block FlatYaml.load).
  vm_compute. reflexivity.
Defined.

Lemma frontmatter_roundtrip_witness :
  exists article_folder disk',
    FileManager.save_blog FlatYaml.dump true
      {[ "save_path"%string := py "/out" ]} ∅ (py "post1")
      (py "Body" ++ [13; 10] ++ py "text" ++ nl) sample_metadata []
      = Ok (article_folder, disk')
    /\ FileManager.import_markdown FlatYaml.load (io.read_text disk')
         (os_path.join article_folder (py "index.md"))
       = Ok (py "Body" ++ nl ++ py "text", sample_metadata).
Proof.
  destruct (frontmatter_roundtrip FlatYaml.dump FlatYaml.load
              {[ "save_path"%string := py "/out" ]} ∅ (py "post1") (py "/out")
              sample_metadata (py "title: Hi" ++ nl)
              (py "Body" ++ [13; 10] ++ py "text" ++ nl))
    as (article_folder & disk' & Hsave & Himport & _).
  - vm_compute. reflexivity.
  - discriminate.
  - vm_compute. reflexivity.
  - vm_compute. reflexivity.
  - vm_compute. reflexivity.
  - vm_compute. reflexivity.
  - vm_compute. reflexivity.
  - exists article_folder, disk'. split; [exact Hsave|exact Himport].
Defined.

(** C2, as stated, fails: the mapping [title: Hi] round-trips through the
    YAML functions and the body [Body text\n] does not start with the
    delimiter, yet the body that comes back has lost its final line feed. *)
Lemma frontmatter_roundtrip_fails :
  ~ (forall (yaml_dump : pyval -> option text)
            (yaml_safe_load : text -> option pyval)
            config disk folder_name M D B article_folder disk',
       yaml_dump M = Some D ->
       yaml_safe_load D = Some M ->
       yaml_safe_load (nl ++ D) = Some M ->
       Py.startswith (py "---") B = false ->
       FileManager.save_blog yaml_dump true config disk folder_name B M []
         = Ok (article_folder, disk') ->
       FileManager.import_markdown yaml_safe_load (io.read_text disk')
         (os_path.join article_folder (py "index.md")) = Ok (B, M)).
Proof.
  intros H.
  pose proof (H FlatYaml.dump FlatYaml.load
                {[ "save_path"%string := py "/out" ]} ∅ (py "post1")
                sample_metadata (py "title: Hi" ++ nl)
                (py "Body text" ++ nl)
                (py "/out/post1")
                {[ py "/out/post1/index.md" := sample_post ]}) as H1.
  assert (FileManager.import_markdown FlatYaml.load
            (io.read_text {[ py "/out/post1/index.md" := sample_post ]})
            (os_path.join (py "/out/post1") (py "index.md"))
          = Ok (py "Body text" ++ nl, sample_metadata)) as H2.
  { apply H1; vm_compute; reflexivity. }
  vm_compute in H2. discriminate H2.
Qed.

(** A second way for C2 to fail: a value that holds [---]. The block is cut
    inside the value. *)
Example frontmatter_delimiter_in_value :
  exists folder disk',
    FileManager.save_blog FlatYaml.dump true
      {[ "save_path"%string := py "/out" ]}
      ∅ (py "post1") (py "Body")
      (PyDict [(py "title", PyStr (py "a---b"))]) [] = Ok (folder, disk')
    /\ FileManager.import_markdown FlatYaml.load (io.read_text disk')
         (os_path.join folder (py "index.md"))
       = Ok (py "b" ++ nl ++ py "---" ++ nl ++ nl ++ py "Body",
             PyDict [(py "title", PyStr (py "a"))]).
Proof. eexists _, _. split; vm_compute; reflexivity. Qed.

(** ** The text cache: [TextCache] *)

#[global] Instance newer_first_trans : Transitive TextCache.newer_first.
Proof. intros a b c. unfold TextCache.newer_first. lia. Qed.

#[global] Instance newer_first_total : Total TextCache.newer_first.
Proof. intros a b. unfold TextCache.newer_first. lia. Qed.

Section CacheFacts.

Import TextCache.

(** Chunks of a positive size, in order, make up the text again. *)
Lemma chunks_cover size n (t : text) :
  (length t <= n * size)%nat ->
  concat ((fun i => take size (drop i t))
            <$> ((fun k => k * size)%nat <$> seq 0 n)) = t.
Proof.
  revert t. induction n as [|n IH]; intros t Hlen.
  - destruct t; simpl in *; [done|lia].
  - cbn [seq]. rewrite <- fmap_S_seq, !fmap_cons, <- !list_fmap_compose.
    cbn [concat]. rewrite Nat.mul_0_l, drop_0.
    transitivity (take size t ++ drop size t); [|apply take_drop].
    f_equal. etransitivity; [|apply (IH (drop size t))].
    + rewrite <- !list_fmap_compose. f_equal. apply list_fmap_ext.
      intros _ k _. simpl. by rewrite drop_drop.
    + rewrite length_drop. lia.
Qed.

Lemma chunk_text_concat size (t : text) :
  (0 < size)%nat -> concat (chunk_text size t) = t.
Proof.
  intros Hs. unfold chunk_text, range_step. apply chunks_cover.
  pose proof (Nat.div_mod_eq (length t + size - 1) size).
  pose proof (Nat.mod_upper_bound (length t + size - 1) size).
  nia.
Qed.

Lemma chunk_size_pos : (0 < chunk_size)%nat.
Proof. unfold chunk_size. lia. Qed.

(** The listing holds the regular files, each name once. *)
Lemma elem_of_listed_files dir n m :
  (n, m) ∈ listed_files dir <-> exists d, dir !! n = Some (RegularFile m d).
Proof.
  unfold listed_files. rewrite list_elem_of_omap. split.
  - intros [[n' e] [Hin Hf]]. apply elem_of_map_to_list in Hin.
    simpl in Hf. destruct e as [m' d|]; [|done].
    injection Hf as <- <-. eauto.
  - intros [d H]. exists (n, RegularFile m d).
    split; [by apply elem_of_map_to_list|done].
Qed.

Lemma listed_files_NoDup dir : NoDup (listed_files dir).*1.
Proof.
  unfold listed_files.
  apply (sublist_NoDup _ (map_to_list dir).*1);
    [apply NoDup_fst_map_to_list|].
  induction (map_to_list dir) as [|[n [m d|m]] l IH]; simpl;
    by constructor.
Qed.

Lemma listed_files_functional dir n m1 m2 :
  (n, m1) ∈ listed_files dir -> (n, m2) ∈ listed_files dir -> m1 = m2.
Proof.
  intros [d1 H1]%elem_of_listed_files [d2 H2]%elem_of_listed_files.
  congruence.
Qed.

(** Removing a list of files removes these and no others. *)
Lemma foldl_delete_lookup (l : list (text * Z)) (dir : gmap text dirent) n :
  foldl (fun d (f : text * Z) => delete f.1 d) dir l !! n
  = if decide (n ∈ l.*1) then None else dir !! n.
Proof.
  revert dir. induction l as [|[k m] l IH]; intros dir.
  - destruct (decide _) as [H|]; [by apply elem_of_nil in H|done].
  - cbn [foldl]. rewrite IH, fmap_cons. cbn [fst].
    destruct (decide (n ∈ l.*1)) as [Hin|Hnin].
    + by rewrite decide_True by (by right).
    + destruct (decide (n = k)) as [->|Hne].
      * rewrite lookup_delete_eq. by rewrite decide_True by left.
      * rewrite lookup_delete_ne by done.
        rewrite decide_False; [done|]. by intros [?|?]%elem_of_cons.
Qed.

Local Abbreviation ranked dir := (merge_sort newer_first (listed_files dir)).

Lemma cleanup_lookup dir n :
  _cleanup_old_cache dir !! n
  = if decide (n ∈ (drop cache_size (ranked dir)).*1) then None
    else dir !! n.
Proof. apply foldl_delete_lookup. Qed.

Lemma cleanup_lookup_cases dir n :
  _cleanup_old_cache dir !! n = None
  \/ _cleanup_old_cache dir !! n = dir !! n.
Proof. rewrite cleanup_lookup. case_decide; auto. Qed.

Lemma ranked_perm dir : ranked dir ≡ₚ listed_files dir.
Proof. apply merge_sort_Permutation. Qed.

Lemma ranked_sorted dir : StronglySorted newer_first (ranked dir).
Proof. apply StronglySorted_merge_sort; apply _. Qed.

Lemma ranked_NoDup dir : NoDup (ranked dir).*1.
Proof. rewrite (ranked_perm dir). apply listed_files_NoDup. Qed.

Lemma ranked_split_NoDup dir :
  forall n, n ∈ (take cache_size (ranked dir)).*1 ->
            n ∉ (drop cache_size (ranked dir)).*1.
Proof.
  pose proof (ranked_NoDup dir) as H.
  rewrite <- (take_drop cache_size (ranked dir)), fmap_app in H.
  by apply NoDup_app in H as (_ & H & _).
Qed.

(** After the cleanup the listing is the head of the ranking. *)
Lemma cleanup_listed dir n m :
  (n, m) ∈ listed_files (_cleanup_old_cache dir)
  <-> (n, m) ∈ take cache_size (ranked dir).
Proof.
  rewrite elem_of_listed_files. setoid_rewrite cleanup_lookup. split.
  - intros [d H]. case_decide as Hin; [done|].
    assert ((n, m) ∈ ranked dir) as Hr.
    { rewrite (ranked_perm dir). apply elem_of_listed_files. eauto. }
    rewrite <- (take_drop cache_size (ranked dir)) in Hr.
    apply elem_of_app in Hr as [Hr|Hr]; [done|].
    destruct Hin. by apply (list_elem_of_fmap_2 fst) in Hr.
  - intros Hin. rewrite decide_False.
    + apply elem_of_listed_files. rewrite <- (ranked_perm dir).
      rewrite <- (take_drop cache_size (ranked dir)).
      apply elem_of_app. by left.
    + apply ranked_split_NoDup. by apply (list_elem_of_fmap_2 fst) in Hin.
Qed.

Lemma cleanup_listed_perm dir :
  listed_files (_cleanup_old_cache dir) ≡ₚ take cache_size (ranked dir).
Proof.
  apply NoDup_Permutation.
  - eapply NoDup_fmap_1, listed_files_NoDup.
  - eapply NoDup_fmap_1. eapply sublist_NoDup; [apply (ranked_NoDup dir)|].
    apply fmap_sublist, sublist_take.
  - intros [n m]. apply cleanup_listed.
Qed.

(** The number of cache files after the cleanup. *)
Lemma cleanup_count dir :
  length (listed_files (_cleanup_old_cache dir))
  = (cache_size `min` length (listed_files dir))%nat.
Proof.
  rewrite (cleanup_listed_perm dir), length_take, (ranked_perm dir). lia.
Qed.

(** A file the cleanup removes is no newer than a file it keeps. *)
Lemma cleanup_keeps_newest dir n m d n' m' d' :
  _cleanup_old_cache dir !! n = Some (RegularFile m d) ->
  dir !! n' = Some (RegularFile m' d') ->
  _cleanup_old_cache dir !! n' = None ->
  (m' <= m)%Z.
Proof.
  intros Hkept Hwas Hgone.
  assert ((n, m) ∈ take cache_size (ranked dir)) as H1.
  { apply cleanup_listed, elem_of_listed_files. eauto. }
  assert ((n', m') ∈ drop cache_size (ranked dir)) as H2.
  { rewrite cleanup_lookup in Hgone. case_decide as Hin; [|congruence].
    apply list_elem_of_fmap in Hin as [[n2 m2] [-> Hin]]. simpl in *.
    replace m' with m2; [done|].
    eapply (listed_files_functional dir n2).
    - rewrite <- (ranked_perm dir).
      rewrite <- (take_drop cache_size (ranked dir)).
      apply elem_of_app. by right.
    - apply elem_of_listed_files. eauto. }
  pose proof (ranked_sorted dir) as Hs.
  rewrite <- (take_drop cache_size (ranked dir)) in Hs.
  apply (StronglySorted_app_1_elem_of _ _ _ _ _ Hs H1 H2).
Qed.

End CacheFacts.

Section CacheClaims.

Import TextCache.

Variable md5_hexdigest : text -> text.

Local Abbreviation ranked dir := (merge_sort newer_first (listed_files dir)).
Local Abbreviation entry now t :=
  (RegularFile now (Some (CacheJson (chunk_text chunk_size t) now))).

(** What a successful [save_to_cache] returns. *)
Lemma save_to_cache_Some (write_ok : bool) (now : Z) (t : text)
  (dir : gmap text dirent) key dir' :
  save_to_cache md5_hexdigest write_ok now t dir = (Some key, dir') ->
  key = md5_hexdigest t
  /\ dir' = _cleanup_old_cache (<[key := entry now t]> dir).
Proof.
  unfold save_to_cache, get_cache_key.
  destruct write_ok; [|done].
  destruct (dir !! md5_hexdigest t) as [[m d|m]|]; [|done|];
    by intros [= <- <-].
Qed.

Lemma save_to_cache_writes (now : Z) (t : text) (dir : gmap text dirent) :
  (forall m, dir !! md5_hexdigest t <> Some (Subdirectory m)) ->
  save_to_cache md5_hexdigest true now t dir
  = (Some (md5_hexdigest t),
     _cleanup_old_cache (<[md5_hexdigest t := entry now t]> dir)).
Proof.
  intros Hreg. unfold save_to_cache, get_cache_key.
  destruct (dir !! md5_hexdigest t) as [[m d|m]|] eqn:E; try done.
  by destruct (Hreg m).
Qed.

(** A text is read back from the file written for it. *)
Lemma load_written (now : Z) (t : text) (dir : gmap text dirent)
  (key : text) :
  dir !! key = Some (entry now t) -> load_from_cache (Some key) dir = Some t.
Proof.
  intros H. unfold load_from_cache. rewrite H. simpl.
  by rewrite chunk_text_concat by apply chunk_size_pos.
Qed.

(** The newest file heads the ranking. *)
Lemma ranked_head_newest (dir : gmap text dirent) (key : text) (now : Z) d :
  dir !! key = Some (RegularFile now d) ->
  (forall n m d', n <> key -> dir !! n = Some (RegularFile m d') ->
                  (m < now)%Z) ->
  exists rest, ranked dir = (key, now) :: rest.
Proof.
  intros Hkey Hold.
  assert ((key, now) ∈ ranked dir) as Hin.
  { rewrite merge_sort_Permutation. apply elem_of_listed_files. eauto. }
  pose proof (ranked_sorted dir) as Hs.
  destruct (ranked dir) as [|[n m] rest] eqn:E; [by apply elem_of_nil in Hin|].
  apply elem_of_cons in Hin as [Heq|Hin]; [injection Heq as <- <-; eauto|].
  exfalso. apply StronglySorted_inv in Hs as [_ Hall].
  rewrite Forall_forall in Hall. specialize (Hall _ Hin).
  unfold newer_first in Hall. simpl in Hall.
  assert ((n, m) ∈ listed_files dir) as Hnm.
  { rewrite <- (merge_sort_Permutation newer_first), E. by left. }
  apply elem_of_listed_files in Hnm as [d' Hnm].
  destruct (decide (n = key)) as [->|Hne].
  - rewrite Hkey in Hnm. injection Hnm as <- <-.
    pose proof (ranked_NoDup dir) as Hnd. rewrite E in Hnd.
    apply NoDup_cons in Hnd as [Hnd _]. apply Hnd.
    by apply (list_elem_of_fmap_2 fst) in Hin.
  - specialize (Hold _ _ _ Hne Hnm). lia.
Qed.

(** Overwriting or adding a regular file keeps every listed name. *)
Lemma names_listed (dir : gmap text dirent) (n : text) :
  n ∈ (listed_files dir).*1
  <-> exists m d, dir !! n = Some (RegularFile m d).
Proof.
  rewrite list_elem_of_fmap. split.
  - intros [[n' m] [-> H]]. apply elem_of_listed_files in H as [d H]. eauto.
  - intros (m & d & H). exists (n, m). split; [done|].
    apply elem_of_listed_files. eauto.
Qed.

Lemma listed_insert_names (dir : gmap text dirent) (key : text) now d n :
  n ∈ (listed_files dir).*1 ->
  n ∈ (listed_files (<[key := RegularFile now d]> dir)).*1.
Proof.
  rewrite !names_listed. intros (m & d' & H).
  destruct (decide (n = key)) as [->|Hne].
  - exists now, d. apply lookup_insert_eq.
  - exists m, d'. by rewrite lookup_insert_ne.
Qed.

Lemma listed_insert_length (dir : gmap text dirent) (key : text) now d :
  (length (listed_files dir)
   <= length (listed_files (<[key := RegularFile now d]> dir)))%nat.
Proof.
  rewrite <- (length_fmap fst (listed_files dir)).
  rewrite <- (length_fmap fst (listed_files (<[key := _]> dir))).
  apply submseteq_length, NoDup_submseteq; [apply listed_files_NoDup|].
  intros n. apply listed_insert_names.
Qed.

(** With at most [cache_size] files the cleanup removes nothing. *)
Lemma cleanup_id (dir : gmap text dirent) :
  (length (listed_files dir) <= cache_size)%nat ->
  _cleanup_old_cache dir = dir.
Proof.
  intros H. unfold _cleanup_old_cache. rewrite drop_ge; [done|].
  by rewrite merge_sort_Permutation.
Qed.

Lemma listed_insert_length_le (dir : gmap text dirent) (key : text) now d :
  (length (listed_files (<[key := RegularFile now d]> dir))
   <= S (length (listed_files dir)))%nat.
Proof.
  rewrite <- (length_fmap fst (listed_files dir)).
  rewrite <- (length_fmap fst (listed_files (<[key := _]> dir))).
  change (S (length (listed_files dir).*1))
    with (length (key :: (listed_files dir).*1)).
  apply submseteq_length, NoDup_submseteq; [apply listed_files_NoDup|].
  intros n. rewrite names_listed. intros (m & d' & H).
  destruct (decide (n = key)) as [->|Hne]; [by left|]. right.
  rewrite lookup_insert_ne in H by done. apply names_listed. eauto.
Qed.

(** The file just written is there after the cleanup when the directory
    had room for it, and when it is newer than every other file. *)
Lemma written_file_kept (now : Z) (key : text) (d : option cache_json)
  (dir : gmap text dirent) :
  (length (listed_files dir) < cache_size)%nat
  \/ (forall n m d', n <> key -> dir !! n = Some (RegularFile m d') ->
                     (m < now)%Z) ->
  _cleanup_old_cache (<[key := RegularFile now d]> dir) !! key
  = Some (RegularFile now d).
Proof.
  intros [Hroom|Hold].
  - rewrite cleanup_id; [apply lookup_insert_eq|].
    pose proof (listed_insert_length_le dir key now d). lia.
  - set (written := <[key := _]> dir). rewrite cleanup_lookup.
    destruct (ranked_head_newest written key now d) as [rest Hrest].
    { apply lookup_insert_eq. }
    { intros n m d' Hne. unfold written. rewrite lookup_insert_ne by done.
      by apply Hold. }
    rewrite decide_False; [apply lookup_insert_eq|].
    pose proof (ranked_NoDup written) as Hnd. rewrite Hrest in Hnd.
    rewrite Hrest. unfold cache_size. cbn [drop].
    apply NoDup_cons in Hnd as [Hnd _]. intros Hin. apply Hnd.
    eapply elem_of_sublist; [exact Hin|]. apply fmap_sublist, sublist_drop.
Qed.

(** C1, amended. For a text UTF-8 encodes, when the write succeeds and
    the file written survives the cleanup that follows it (the directory had
    fewer than [cache_size] files, or the clock has moved past every other
    file of it), [save_to_cache] returns the key of the text and
    [load_from_cache] under that key gives the text back, whatever its
    length: the chunks are joined in the order they were stored. *)
Theorem cache_roundtrip (now : Z) (t : text) (dir : gmap text dirent) :
  io.encodable t = true ->
  (forall m, dir !! md5_hexdigest t <> Some (Subdirectory m)) ->
  ((length (listed_files dir) < cache_size)%nat
   \/ (forall n m d, n <> md5_hexdigest t ->
                     dir !! n = Some (RegularFile m d) -> (m < now)%Z)) ->
  (save_to_cache md5_hexdigest true now t dir).1 = Some (md5_hexdigest t)
  /\ load_from_cache (save_to_cache md5_hexdigest true now t dir).1
       (save_to_cache md5_hexdigest true now t dir).2 = Some t.
Proof.
  intros _ Hreg Hkept. rewrite (save_to_cache_writes _ _ _ Hreg). simpl.
  split; [done|]. apply (load_written now).
  by apply written_file_kept.
Qed.

(** A run of insertions leaves the directory full, or holding every text
    inserted. *)
Lemma save_all_invariant (inputs : list (Z * text)) (dir : gmap text dirent) :
  (forall n m, dir !! n <> Some (Subdirectory m)) ->
  (forall n m, save_all md5_hexdigest inputs dir !! n
               <> Some (Subdirectory m))
  /\ (inputs <> [] ->
      (length (listed_files (save_all md5_hexdigest inputs dir))
       <= cache_size)%nat)
  /\ (length (listed_files (save_all md5_hexdigest inputs dir)) = cache_size
      \/ forall i, i ∈ inputs ->
           md5_hexdigest i.2
             ∈ (listed_files (save_all md5_hexdigest inputs dir)).*1).
Proof.
  intros Hreg. induction inputs as [|x l IH] using rev_ind.
  - split; [done|]. split; [done|]. right. intros i Hi.
    by apply elem_of_nil in Hi.
  - unfold save_all. rewrite foldl_app. cbn [foldl].
    fold (save_all md5_hexdigest l dir).
    set (d := save_all md5_hexdigest l dir) in *.
    destruct IH as (Hr & Hle & Hcase).
    rewrite (save_to_cache_writes x.1 x.2 d (Hr _)). cbn [snd].
    set (key := md5_hexdigest x.2).
    set (written := <[key := entry x.1 x.2]> d).
    split; [|split].
    + intros n m H.
      destruct (cleanup_lookup_cases written n) as [E|E]; rewrite E in H;
        [done|].
      unfold written in H. destruct (decide (n = key)) as [->|Hne].
      * by rewrite lookup_insert_eq in H.
      * rewrite lookup_insert_ne in H by done. by apply Hr in H.
    + intros _. rewrite cleanup_count. lia.
    + destruct (decide (cache_size <= length (listed_files written))%nat)
        as [Hfull|Hroom].
      * left. rewrite cleanup_count. lia.
      * right. rewrite cleanup_id by lia.
        intros i [Hi| ->%list_elem_of_singleton]%elem_of_app.
        -- apply listed_insert_names.
           destruct Hcase as [Hc|Hc]; [|by apply Hc]. exfalso.
           pose proof (listed_insert_length d key x.1
                         (Some (CacheJson (chunk_text chunk_size x.2) x.1))).
           fold written in H. lia.
        -- apply names_listed. eexists _, _. apply lookup_insert_eq.
Qed.

Lemma save_all_full (inputs : list (Z * text)) (dir : gmap text dirent) :
  (forall n m, dir !! n <> Some (Subdirectory m)) ->
  NoDup ((fun i : Z * text => md5_hexdigest i.2) <$> inputs) ->
  (cache_size <= length inputs)%nat ->
  length (listed_files (save_all md5_hexdigest inputs dir)) = cache_size.
Proof.
  intros Hreg Hnd Hlen.
  destruct (save_all_invariant inputs dir Hreg) as (_ & Hle & [Hc|Hc]);
    [done|].
  assert (inputs <> []) as Hne.
  { intros ->. unfold cache_size in Hlen. simpl in Hlen. lia. }
  specialize (Hle Hne).
  assert (length inputs
          <= length (listed_files (save_all md5_hexdigest inputs dir)))%nat.
  { rewrite <- (length_fmap (fun i : Z * text => md5_hexdigest i.2) inputs).
    rewrite <- (length_fmap fst (listed_files _)).
    apply submseteq_length, NoDup_submseteq; [done|].
    intros k [i [-> Hi]]%list_elem_of_fmap. by apply Hc. }
  lia.
Qed.

(** C4. After an insertion the cache directory holds at most
    [cache_size] = 10 files: as many as were there with the new one, cut
    to 10. What is kept is what the write left, and every file removed is
    no newer than every file kept. A run of [cache_size + 5] insertions of
    texts with distinct keys, into a directory of files, leaves exactly
    [cache_size] files. *)
Theorem save_to_cache_eviction (write_ok : bool) (now : Z) (t : text)
  (dir : gmap text dirent) (key : text) (dir' : gmap text dirent) :
  save_to_cache md5_hexdigest write_ok now t dir = (Some key, dir') ->
  (length (listed_files dir') <= cache_size)%nat
  /\ length (listed_files dir')
     = (cache_size `min` length (listed_files (<[key := entry now t]> dir)))%nat
  /\ (forall n e, dir' !! n = Some e ->
                  (<[key := entry now t]> dir) !! n = Some e)
  /\ (forall n m d n' m' d',
        dir' !! n = Some (RegularFile m d) ->
        (<[key := entry now t]> dir) !! n' = Some (RegularFile m' d') ->
        dir' !! n' = None ->
        (m' <= m)%Z)
  /\ (forall (inputs : list (Z * text)) (dir0 : gmap text dirent),
        (forall n m, dir0 !! n <> Some (Subdirectory m)) ->
        NoDup ((fun i : Z * text => md5_hexdigest i.2) <$> inputs) ->
        length inputs = (cache_size + 5)%nat ->
        length (listed_files (save_all md5_hexdigest inputs dir0))
        = cache_size).
Proof.
  intros [-> ->]%save_to_cache_Some.
  split; [rewrite cleanup_count; lia|].
  split; [apply cleanup_count|].
  split; [|split].
  - intros n e H.
    destruct (cleanup_lookup_cases (<[md5_hexdigest t := entry now t]> dir) n)
      as [E|E]; rewrite E in H; done.
  - intros n m d n' m' d'. apply cleanup_keeps_newest.
  - intros inputs dir0 Hreg Hnd Hlen. apply save_all_full; [done..|lia].
Qed.

End CacheClaims.

Lemma sample_cache_old n m d :
  sample_cache !! n = Some (TextCache.RegularFile m d) -> (m < 100)%Z.
Proof.
  intros H. apply elem_of_list_to_map_2 in H. cbn [seq fmap list_fmap] in H.
  repeat (apply elem_of_cons in H as [H|H]; [injection H as _ -> _; lia|]).
  by apply elem_of_nil in H.
Qed.

Lemma cache_roundtrip_witness :
  (TextCache.save_to_cache sum_digest true 100 (py "hello")
     sample_cache).1 = Some (sum_digest (py "hello"))
  /\ TextCache.load_from_cache
       (TextCache.save_to_cache sum_digest true 100 (py "hello")
          sample_cache).1
       (TextCache.save_to_cache sum_digest true 100 (py "hello")
          sample_cache).2 = Some (py "hello").
Proof.
  apply (cache_roundtrip sum_digest 100 (py "hello") sample_cache).
  - vm_compute. reflexivity.
  - intros m. vm_compute. discriminate.
  - right. intros n m d _. apply sample_cache_old.
Defined.

(** C1, as stated, fails: a save can return a key under which nothing is
    loaded. The directory holds ten files, written at the times 1 to 10,
    and the write is stamped 0: it is the oldest of eleven, and the cleanup
    inside [save_to_cache] removes it. *)
Lemma cache_roundtrip_fails :
  ~ (forall (md5_hexdigest : text -> text) (now : Z) (t : text)
            (dir : gmap text TextCache.dirent) key dir',
       TextCache.save_to_cache md5_hexdigest true now t dir
         = (Some key, dir') ->
       TextCache.load_from_cache (Some key) dir' = Some t).
Proof.
  intros H.
  pose proof (H sum_digest 0%Z (py "hello")
                (list_to_map
                   ((fun k => (Py.str_of_nat k,
                               TextCache.RegularFile (Z.of_nat k) None))
                      <$> seq 1 10))
                (py "532")
                (list_to_map
                   ((fun k => (Py.str_of_nat k,
                               TextCache.RegularFile (Z.of_nat k) None))
                      <$> seq 1 10))) as H1.
  assert (TextCache.load_from_cache (Some (py "532"))
            (list_to_map
               ((fun k => (Py.str_of_nat k,
                           TextCache.RegularFile (Z.of_nat k) None))
                  <$> seq 1 10))
          = Some (py "hello")) as H2.
  { apply H1. vm_compute. reflexivity. }
  vm_compute in H2. discriminate H2.
Qed.

Lemma save_to_cache_eviction_witness :
  (length (TextCache.listed_files
             (TextCache.save_to_cache sum_digest true 100 (py "hello")
                sample_cache).2) <= TextCache.cache_size)%nat.
Proof.
  apply (save_to_cache_eviction sum_digest true 100 (py "hello") sample_cache
           (py "532")
           (TextCache.save_to_cache sum_digest true 100 (py "hello")
              sample_cache).2).
  vm_compute. reflexivity.
Defined.

(** Without the clock: a write stamped no later than the ten newest files
    of a full directory is removed by the cleanup that follows it, and the
    key then loads nothing. *)
Example stale_clock_evicts :
  TextCache.load_from_cache
    (TextCache.save_to_cache sum_digest true 0 (py "hello") sample_cache).1
    (TextCache.save_to_cache sum_digest true 0 (py "hello") sample_cache).2
  = None.
Proof. vm_compute. reflexivity. Qed.

(** The chunks of a text longer than the chunk size, at size 4, and what
    an insertion into the full sample directory leaves: the two oldest
    files are gone. *)
Example chunk_text_example :
  TextCache.chunk_text 4 (py "hello world") = [py "hell"; py "o wo"; py "rld"]
  /\ TextCache.chunk_text 4 [] = [].
Proof. split; vm_compute; reflexivity. Qed.

Example eviction_example :
  dom (TextCache.save_to_cache sum_digest true 100 (py "hello")
         sample_cache).2
  = list_to_set (py "532" :: (Py.str_of_nat <$> seq 2 9)).
Proof. vm_compute. reflexivity. Qed.

(** ** The editor: [MarkdownEditor] *)

Section EditorClaims.

Import TextCache MarkdownEditor.

Variable isalpha : N -> bool.
Variable md5_hexdigest : text -> text.

Lemma update_statistics_text (e : MarkdownEditor.t) :
  toPlainText (update_statistics isalpha e) = toPlainText e.
Proof. done. Qed.

(** The text is served when the file under the key is the one written for
    it, and when there is no file under the key. *)
Lemma toPlainText_served (dir : gmap text dirent) (key : option text)
  (txt : text) (wc : nat) (now : Z) :
  (forall k, key = Some k ->
     dir !! k = None
     \/ dir !! k
        = Some (RegularFile now
                  (Some (CacheJson (chunk_text chunk_size txt) now)))) ->
  toPlainText (Editor dir key txt wc) = txt.
Proof.
  intros H. unfold toPlainText. cbn.
  destruct key as [k|]; [|done]. destruct (Py.truthy k); [|done].
  destruct (H k eq_refl) as [-> | ->]; [done|]. simpl.
  by rewrite chunk_text_concat by apply chunk_size_pos.
Qed.

(** The widget gives back a text made of characters it keeps. *)
Lemma plain_text_kept (txt : text) :
  forallb QTextEdit.kept txt = true -> QTextEdit.plain_text txt = txt.
Proof.
  intros H. unfold QTextEdit.plain_text.
  rewrite universal_newlines_id.
  - induction txt as [|c txt IH]; [done|].
    cbn [forallb] in H. apply andb_true_iff in H as [Hc H].
    cbn [fmap list_fmap]. fold (fmap QTextEdit.plain_char txt).
    rewrite (IH H). f_equal. revert Hc.
    unfold QTextEdit.kept, QTextEdit.plain_char.
    destruct (c =? 13), (c =? 160), (c =? 8232), (c =? 8233), (c =? 64976),
      (c =? 64977); done.
  - intros Hin. apply list_elem_of_In in Hin.
    rewrite forallb_forall in H. by specialize (H _ Hin).
Qed.

(** The fields of the editor after [setPlainText]. *)
Lemma setPlainText_fields (write_ok : bool) (now : Z) (txt : text)
  (e : MarkdownEditor.t) :
  text_cache (setPlainText isalpha md5_hexdigest write_ok now txt e)
  = (save_to_cache md5_hexdigest write_ok now txt (text_cache e)).2
  /\ current_cache_key (setPlainText isalpha md5_hexdigest write_ok now txt e)
     = (save_to_cache md5_hexdigest write_ok now txt (text_cache e)).1
  /\ document (setPlainText isalpha md5_hexdigest write_ok now txt e)
     = QTextEdit.plain_text txt.
Proof.
  unfold setPlainText. by destruct (save_to_cache _ _ _ _ _) as [key dir].
Qed.

(** Under the key a save returned there is the file written for the text,
    or none. *)
Lemma saved_file_cases (write_ok : bool) (now : Z) (txt : text)
  (dir : gmap text dirent) (k : text) (dir' : gmap text dirent) :
  save_to_cache md5_hexdigest write_ok now txt dir = (Some k, dir') ->
  k = md5_hexdigest txt
  /\ (dir' !! k = None
      \/ dir' !! k
         = Some (RegularFile now
                   (Some (CacheJson (chunk_text chunk_size txt) now)))).
Proof.
  intros [-> ->]%save_to_cache_Some. split; [done|].
  destruct (cleanup_lookup_cases
              (<[md5_hexdigest txt :=
                   RegularFile now
                     (Some (CacheJson (chunk_text chunk_size txt) now))]>
                 dir) (md5_hexdigest txt)) as [H|H];
    rewrite H; [by left|right]. apply lookup_insert_eq.
Qed.

(** What the editor reads: the text of the cache file when there is one
    under the key, the text of the widget otherwise. *)
Lemma toPlainText_cached_or_widget (dir : gmap text dirent)
  (key : option text) (doc txt : text) (wc : nat) (now : Z) :
  (forall k, key = Some k ->
     dir !! k = None
     \/ dir !! k
        = Some (RegularFile now
                  (Some (CacheJson (chunk_text chunk_size txt) now)))) ->
  (toPlainText (Editor dir key doc wc) = txt
   /\ exists k, key = Some k /\ k <> [] /\ dir !! k <> None)
  \/ (toPlainText (Editor dir key doc wc) = doc
      /\ forall k, key = Some k -> k <> [] -> dir !! k = None).
Proof.
  intros H. unfold toPlainText. cbn.
  destruct key as [k|]; [|by right].
  destruct k as [|c k].
  { right. split; [done|]. by intros k' [= <-] Hne. }
  cbn [Py.truthy].
  destruct (H (c :: k) eq_refl) as [E|E]; rewrite E.
  - right. split; [done|]. by intros k' [= <-] _.
  - left. cbn. rewrite chunk_text_concat by apply chunk_size_pos.
    split; [done|]. exists (c :: k). by rewrite E.
Qed.

(** C5, amended. Reading the editor right after [setPlainText] gives the
    text just set when it is served from the cache file, and the text as the
    Qt widget gives it back otherwise: when the write failed (the key is
    then [None]) or the file is gone, be it removed by the cleanup or
    deleted afterwards. The widget gives [\r\n], [\r], U+2028, U+2029, U+FDD0
    and U+FDD1 back as [\n] and U+00A0 as a space; a text without any of
    these characters is read back exactly on every path. A write that goes
    through, for a text UTF-8 encodes and a file that survives the cleanup,
    is served from the cache, whatever characters the text holds. *)
Theorem setPlainText_toPlainText (write_ok : bool) (now : Z) (txt : text)
  (e : MarkdownEditor.t) :
  (toPlainText (setPlainText isalpha md5_hexdigest write_ok now txt e) = txt
   \/ toPlainText (setPlainText isalpha md5_hexdigest write_ok now txt e)
      = QTextEdit.plain_text txt)
  /\ (forallb QTextEdit.kept txt = true ->
      toPlainText (setPlainText isalpha md5_hexdigest write_ok now txt e)
      = txt
      /\ forall gone : text,
           toPlainText
             (Editor
                (delete gone
                   (text_cache
                      (setPlainText isalpha md5_hexdigest write_ok now txt
                         e)))
                (current_cache_key
                   (setPlainText isalpha md5_hexdigest write_ok now txt e))
                (document
                   (setPlainText isalpha md5_hexdigest write_ok now txt e))
                (word_count
                   (setPlainText isalpha md5_hexdigest write_ok now txt e)))
           = txt)
  /\ (current_cache_key
        (setPlainText isalpha md5_hexdigest false now txt e) = None
      /\ toPlainText (setPlainText isalpha md5_hexdigest false now txt e)
         = QTextEdit.plain_text txt)
  /\ (current_cache_key
        (setPlainText isalpha md5_hexdigest write_ok now txt e) = None
      \/ current_cache_key
           (setPlainText isalpha md5_hexdigest write_ok now txt e)
         = Some (md5_hexdigest txt))
  /\ (forall k,
        current_cache_key
          (setPlainText isalpha md5_hexdigest write_ok now txt e) = Some k ->
        k <> [] ->
        text_cache (setPlainText isalpha md5_hexdigest write_ok now txt e)
          !! k <> None ->
        toPlainText (setPlainText isalpha md5_hexdigest write_ok now txt e)
        = txt)
  /\ (forall k,
        current_cache_key
          (setPlainText isalpha md5_hexdigest write_ok now txt e) = Some k ->
        toPlainText
          (Editor
             (delete k
                (text_cache
                   (setPlainText isalpha md5_hexdigest write_ok now txt e)))
             (current_cache_key
                (setPlainText isalpha md5_hexdigest write_ok now txt e))
             (document
                (setPlainText isalpha md5_hexdigest write_ok now txt e))
             (word_count
                (setPlainText isalpha md5_hexdigest write_ok now txt e)))
        = QTextEdit.plain_text txt)
  /\ (io.encodable txt = true ->
      md5_hexdigest txt <> [] ->
      (forall m, text_cache e !! md5_hexdigest txt <> Some (Subdirectory m)) ->
      ((length (listed_files (text_cache e)) < cache_size)%nat
       \/ (forall n m d, n <> md5_hexdigest txt ->
                         text_cache e !! n = Some (RegularFile m d) ->
                         (m < now)%Z)) ->
      current_cache_key (setPlainText isalpha md5_hexdigest true now txt e)
      = Some (md5_hexdigest txt)
      /\ load_from_cache (Some (md5_hexdigest txt))
           (text_cache (setPlainText isalpha md5_hexdigest true now txt e))
         = Some txt
      /\ toPlainText (setPlainText isalpha md5_hexdigest true now txt e)
         = txt).
Proof.
  assert (forall ok,
            toPlainText (setPlainText isalpha md5_hexdigest ok now txt e)
            = toPlainText
                (Editor
                   (save_to_cache md5_hexdigest ok now txt (text_cache e)).2
                   (save_to_cache md5_hexdigest ok now txt (text_cache e)).1
                   (QTextEdit.plain_text txt) 0)) as Hread.
  { intros ok. unfold setPlainText.
    by destruct (save_to_cache _ _ _ _ _) as [key dir]. }
  pose proof (setPlainText_fields write_ok now txt e) as (Hdir & Hkey & Hdoc).
  rewrite Hdir, Hkey, Hdoc, !Hread. clear Hdir Hkey Hdoc Hread.
  destruct (save_to_cache md5_hexdigest write_ok now txt (text_cache e))
    as [key dir] eqn:E. cbn [fst snd].
  assert (forall k, key = Some k ->
            dir !! k = None
            \/ dir !! k
               = Some (RegularFile now
                         (Some (CacheJson (chunk_text chunk_size txt) now))))
    as Hfile.
  { intros k ->. by apply saved_file_cases in E as [_ ?]. }
  split; [|split; [|split; [|split; [|split; [|split]]]]].
  - destruct (toPlainText_cached_or_widget dir key (QTextEdit.plain_text txt)
                txt 0 now Hfile) as [[? _]|[? _]]; auto.
  - intros Hkept. rewrite (plain_text_kept _ Hkept). split.
    + by apply (toPlainText_served _ _ _ _ now).
    + intros gone. apply (toPlainText_served _ _ _ _ now). intros k Hk.
      destruct (decide (gone = k)) as [->|Hne].
      * left. apply lookup_delete_eq.
      * rewrite lookup_delete_ne by done. by apply Hfile.
  - done.
  - destruct key as [k|]; [|by left]. right.
    by apply saved_file_cases in E as [-> _].
  - intros k -> Hk Hin.
    destruct (toPlainText_cached_or_widget dir (Some k)
                (QTextEdit.plain_text txt) txt 0 now Hfile)
      as [[? _]|[_ Hnone]]; [done|].
    by rewrite (Hnone k eq_refl Hk) in Hin.
  - intros k ->. unfold toPlainText. cbn.
    destruct (Py.truthy k); [|done]. by rewrite lookup_delete_eq.
  - intros _ Hne Hreg Hkept.
    pose proof (setPlainText_fields true now txt e) as (-> & -> & _).
    rewrite (save_to_cache_writes _ _ _ _ Hreg). cbn [fst snd].
    pose proof (written_file_kept now (md5_hexdigest txt)
                  (Some (CacheJson (chunk_text chunk_size txt) now))
                  (text_cache e) Hkept) as Hthere.
    pose proof (load_written now txt _ _ Hthere) as Hload.
    split; [done|]. split; [exact Hload|].
    unfold toPlainText. cbn [current_cache_key text_cache document].
    destruct (md5_hexdigest txt) as [|c k] eqn:Ek; [done|].
    cbn [Py.truthy]. by rewrite Hload.
Qed.

End EditorClaims.

(** C5, as stated, fails when the write fails: the widget gives the
    no-break space back as a space. *)
Lemma setPlainText_toPlainText_fails :
  ~ (forall (isalpha : N -> bool) (md5_hexdigest : text -> text)
            (write_ok : bool) (now : Z) (txt : text) (e : MarkdownEditor.t),
       MarkdownEditor.toPlainText
         (MarkdownEditor.setPlainText isalpha md5_hexdigest write_ok now txt
            e) = txt).
Proof.
  intros H.
  specialize (H isalpha_ascii_cjk sum_digest false 0%Z [0xA0]
                (MarkdownEditor.Editor ∅ None [] 0)).
  vm_compute in H. discriminate H.
Qed.

(** ** The statistics *)

Section StatisticsClaims.

Import MarkdownEditor.

Variable isalpha : N -> bool.

(** The word count is the number of ideographs plus the number of tokens
    with a letter. *)
Lemma word_count_formula (e : MarkdownEditor.t) :
  word_count (update_statistics isalpha e)
  = (chinese_count (toPlainText e) + english_words isalpha (toPlainText e))%nat.
Proof. done. Qed.

(** C7. On the text of the example the code counts 2 ideographs and 3
    tokens with a letter: the token made of the two ideographs is one of
    them, since [str.isalpha] holds of ideographs. The word count is 5, not
    the 4 of the example. *)
Theorem word_count_example :
  (forall c, isalpha_ascii_cjk c = true -> isalpha c = true) ->
  chinese_count sample_mixed = 2%nat
  /\ english_words isalpha sample_mixed = 3%nat
  /\ forall e, toPlainText e = sample_mixed ->
               word_count (update_statistics isalpha e) = 5%nat.
Proof.
  intros Halpha.
  assert (english_words isalpha sample_mixed = 3%nat) as Hw.
  { unfold english_words.
    change (Py.split_ws sample_mixed)
      with [[0x4f60; 0x597d]; py "hello"; py "world"].
    assert (isalpha 0x4f60 = true) as H1 by by apply Halpha.
    assert (isalpha 104 = true) as H2 by by apply Halpha.
    assert (isalpha 119 = true) as H3 by by apply Halpha.
    py_eval. cbn [List.filter existsb]. by rewrite H1, H2, H3. }
  split; [done|]. split; [done|].
  intros e He. by rewrite word_count_formula, He, Hw.
Qed.

End StatisticsClaims.

Lemma word_count_example_witness :
  MarkdownEditor.chinese_count sample_mixed = 2%nat
  /\ MarkdownEditor.english_words isalpha_ascii_cjk sample_mixed = 3%nat.
Proof.
  destruct (word_count_example isalpha_ascii_cjk) as (H1 & H2 & _);
    [by intros c Hc|]. by split.
Defined.

(** ** The preview: [BlogEditor.update_preview] *)

Section PreviewClaims.

Import BlogEditor.

Variable cwd : text.

Lemma replace_same c (s : text) : Py.replace [c] [c] s = s.
Proof.
  unfold Py.replace. induction s as [|a s IH]; [done|].
  cbn [Py.replace_from Py.startswith length]. rewrite andb_true_r.
  destruct (N.eqb_spec c a) as [->|Hne]; simpl; by rewrite IH.
Qed.

(** A reference that starts with [./] or [../] is joined to the directory
    name of the save path. *)
Lemma replace_path_relative (w : BlogEditor.t) (alt path : text) :
  Py.startswith (py "./") path || Py.startswith (py "../") path = true ->
  replace_path cwd w alt path
  = py "![" ++ alt ++ py "](" ++ py "file:///"
    ++ os_path.abspath cwd (os_path.join (os_path.dirname (save_path w)) path)
    ++ py ")".
Proof.
  intros H. unfold replace_path. rewrite H.
  assert (Py.startswith (py "http://") path
          || Py.startswith (py "https://") path
          || Py.startswith (py "file:///") path = false) as ->.
  { destruct path as [|c path]; [done|]. revert H. py_eval.
    cbn [Py.startswith]. destruct (N.eqb_spec 46 c) as [<-|]; [done|].
    by rewrite !andb_false_l. }
  change (py "/") with [os_path.sep]. rewrite replace_same.
  by rewrite <- !app_assoc.
Qed.

(** C6. With the save path [/articles/post1] the reference [./cover.png]
    becomes a URL of [/articles/cover.png]: the base is the directory name
    of the save path, which is its parent [/articles], not the save
    directory itself. *)
Theorem preview_relative_image (w : BlogEditor.t) :
  save_path w = py "/articles/post1" ->
  path_to_url cwd w (py "![cover](./cover.png)")
  = py "![cover](file:////articles/cover.png)"
  /\ os_path.dirname (save_path w) = py "/articles".
Proof.
  intros H. unfold path_to_url.
  change (re_sub_image (replace_path cwd w) 0 (py "![cover](./cover.png)"))
    with (replace_path cwd w (py "cover") (py "./cover.png") ++ []).
  rewrite app_nil_r, replace_path_relative by done. rewrite H.
  split; by vm_compute.
Qed.

End PreviewClaims.

Lemma preview_relative_image_witness :
  BlogEditor.path_to_url (py "/home/user") sample_window
    (py "![cover](./cover.png)")
  = py "![cover](file:////articles/cover.png)".
Proof.
  apply (preview_relative_image (py "/home/user") sample_window).
  reflexivity.
Defined.

(** The reference is resolved against [/articles/post1] only when the save
    path names something inside that directory or ends with a slash. *)
Example preview_relative_image_inside :
  BlogEditor.replace_path (py "/home/user")
    (BlogEditor.Window (MarkdownEditor.Editor ∅ None [] 0)
       [] [] [] [] [] [] [] [] (py "/articles/post1/"))
    (py "cover") (py "./cover.png")
  = py "![cover](file:////articles/post1/cover.png)".
Proof. vm_compute. reflexivity. Qed.

(** ** The autosaver: [AutoSaver.auto_save] *)

Section AutoSaveClaims.

Import AutoSaver.

(** C8. A tick writes the recovery files exactly when the content or the
    metadata differs from what was last written. With both unchanged
    nothing is written and the saver stays as it is, whatever the state of
    the disk; with a change, and the writes going through, [content.md] and
    [metadata.json] are both overwritten and the last-written snapshot
    becomes the current one. *)
Theorem auto_save_writes_iff_changed (fault : write_fault) (now : Z)
  (w : BlogEditor.t) (s : AutoSaver.t) :
  ((auto_save NoFault now w s).1.2 = []
   <-> MarkdownEditor.toPlainText (BlogEditor.content_input w)
         = last_content s
       /\ current_metadata w = last_metadata s)
  /\ (MarkdownEditor.toPlainText (BlogEditor.content_input w)
        = last_content s ->
      current_metadata w = last_metadata s ->
      auto_save fault now w s = (s, [], Quiet))
  /\ (MarkdownEditor.toPlainText (BlogEditor.content_input w)
        <> last_content s
      \/ current_metadata w <> last_metadata s ->
      auto_save NoFault now w s
      = (Saver (MarkdownEditor.toPlainText (BlogEditor.content_input w))
           (current_metadata w)
           (<["metadata.json"%string :=
                (now, MetadataJson (current_metadata w))]>
              (<["content.md"%string :=
                   (now, ContentMd
                           (MarkdownEditor.toPlainText
                              (BlogEditor.content_input w)))]>
                 (auto_save_dir s))),
         [("content.md"%string,
           ContentMd
             (MarkdownEditor.toPlainText (BlogEditor.content_input w)));
          ("metadata.json"%string, MetadataJson (current_metadata w))],
         Saved)).
Proof.
  unfold auto_save. split; [|split].
  - case_bool_decide as H; simpl.
    + split; [done|]. intros [??]. by destruct H.
    + split; [|done]. intros _.
      split; [destruct (decide (MarkdownEditor.toPlainText
                                  (BlogEditor.content_input w)
                                = last_content s))
             |destruct (decide (current_metadata w = last_metadata s))];
        try done; destruct H; auto.
  - intros H1 H2. rewrite bool_decide_eq_false_2; [done|].
    by intros [?|?].
  - intros H. by rewrite bool_decide_eq_true_2.
Qed.

(** When only the second write fails the snapshot is not advanced, so the
    next tick tries again. *)
Lemma auto_save_retry (now : Z) (w : BlogEditor.t) (s : AutoSaver.t) :
  last_content (auto_save MetadataWriteFails now w s).1.1 = last_content s
  /\ last_metadata (auto_save MetadataWriteFails now w s).1.1
     = last_metadata s.
Proof. unfold auto_save. by case_bool_decide. Qed.

End AutoSaveClaims.

(** The first tick on the sample window writes both files; the second, with
    nothing changed, writes none. *)
Lemma auto_save_writes_iff_changed_witness :
  (AutoSaver.auto_save AutoSaver.NoFault 60 sample_window
     (AutoSaver.init ∅)).1.2
  = [("content.md"%string, AutoSaver.ContentMd (py "draft"));
     ("metadata.json"%string,
      AutoSaver.MetadataJson (AutoSaver.current_metadata sample_window))]
  /\ (AutoSaver.auto_save AutoSaver.NoFault 120 sample_window
        (AutoSaver.auto_save AutoSaver.NoFault 60 sample_window
           (AutoSaver.init ∅)).1.1).1.2 = [].
Proof.
  split.
  - destruct (auto_save_writes_iff_changed AutoSaver.NoFault 60
                sample_window (AutoSaver.init ∅)) as (_ & _ & H).
    rewrite H; [done|]. left. discriminate.
  - destruct (auto_save_writes_iff_changed AutoSaver.NoFault 120
                sample_window
                (AutoSaver.auto_save AutoSaver.NoFault 60 sample_window
                   (AutoSaver.init ∅)).1.1) as (_ & H & _).
    rewrite H; [done| |];
      (destruct (auto_save_writes_iff_changed AutoSaver.NoFault 60
                   sample_window (AutoSaver.init ∅)) as (_ & _ & H');
       rewrite H'; [done|left; discriminate]).
Defined.

(** ** Unique file names: [FileManager.ensure_unique_filename] *)

Section UniqueFilenameClaims.

Import FileManager.

Lemma py_inj s1 s2 : py s1 = py s2 -> s1 = s2.
Proof.
  revert s2. induction s1 as [|a s1 IH]; intros [|b s2]; simpl; try done.
  intros [= Hab Hs]. f_equal; [|by apply IH].
  by rewrite <- (ascii_N_embedding a), Hab, ascii_N_embedding.
Qed.

#[local] Instance str_of_nat_inj : Inj (=) (=) Py.str_of_nat.
Proof.
  intros a b H%py_inj.
  assert (Some (Nat.to_uint a) = Some (Nat.to_uint b)) as [= Hu].
  { by rewrite <- !NilEmpty.usu, H. }
  by rewrite <- (Unsigned.of_to a), Hu, Unsigned.of_to.
Qed.

(** Two rounds probe two paths. *)
Lemma numbered_path_inj (folder_path name ext : text) (j j' : nat) :
  os_path.join folder_path (numbered name ext j)
  = os_path.join folder_path (numbered name ext j') ->
  j = j'.
Proof.
  unfold os_path.join, numbered.
  assert (Py.startswith [os_path.sep]
            (name ++ py "_" ++ Py.str_of_nat j ++ ext)
          = Py.startswith [os_path.sep]
              (name ++ py "_" ++ Py.str_of_nat j' ++ ext)) as <-
    by by destruct name.
  intros H. apply (inj Py.str_of_nat).
  apply (app_inv_tail ext), (app_inv_head (py "_")), (app_inv_head name).
  destruct (Py.startswith _ _); [done|].
  destruct (_ || _).
  - by apply (app_inv_head folder_path).
  - by apply (app_inv_head [os_path.sep]), (app_inv_head folder_path).
Qed.

(** Among one more round than there are existing paths, one probes a free
    path. *)
Lemma some_round_free (existing : gset text) (folder_path name ext : text) :
  exists j, (1 <= j < 1 + S (size existing))%nat
            /\ os_path.join folder_path (numbered name ext j) ∉ existing.
Proof.
  set (path j := os_path.join folder_path (numbered name ext j)).
  destruct (decide (Exists (fun j => path j ∉ existing)
                      (seq 1 (S (size existing))))) as [Hex|Hall].
  - apply Exists_exists in Hex as (j & Hj & Hfree).
    apply elem_of_seq in Hj. exists j. split; [lia|done].
  - exfalso. apply not_Exists_Forall in Hall; [|apply _].
    rewrite Forall_forall in Hall.
    assert (size (list_to_set (path <$> seq 1 (S (size existing)))
                    : gset text) <= size existing)%nat as Hsz.
    { apply subseteq_size. intros p [j [-> Hj]]%elem_of_list_to_set
        %list_elem_of_fmap.
      specialize (Hall j Hj). simpl in Hall. by apply dec_stable. }
    rewrite size_list_to_set, length_fmap, length_seq in Hsz; [lia|].
    apply NoDup_fmap_2_strong; [|apply NoDup_seq].
    intros j j' _ _. apply numbered_path_inj.
Qed.

(** What the loop returns when some round within the fuel is free. *)
Lemma probe_filenames_spec (existing : gset text)
  (folder_path name ext : text) (fuel counter : nat) (cur : text) :
  os_path.join folder_path cur ∉ existing
  \/ (exists j, (counter <= j < counter + fuel)%nat
                /\ os_path.join folder_path (numbered name ext j) ∉ existing)
  ->
  exists r,
    probe_filenames existing folder_path name ext fuel counter cur = Some r
    /\ (os_path.join folder_path r ∉ existing)
    /\ (os_path.join folder_path cur ∉ existing -> r = cur)
    /\ (os_path.join folder_path cur ∈ existing ->
        exists k, (counter <= k)%nat /\ r = numbered name ext k
                  /\ forall j, (counter <= j < k)%nat ->
                       os_path.join folder_path (numbered name ext j)
                         ∈ existing).
Proof.
  revert counter cur. induction fuel as [|fuel IH]; intros counter cur Hfree.
  - destruct Hfree as [Hcur|(j & Hj & _)]; [|lia].
    exists cur. cbn [probe_filenames]. rewrite bool_decide_eq_false_2 by done.
    by repeat split.
  - cbn [probe_filenames]. case_bool_decide as Hcur.
    + destruct (IH (S counter) (numbered name ext counter))
        as (r & Hr & Hrfree & Hfirst & Hlater).
      { destruct Hfree as [?|(j & Hj & Hjfree)]; [done|].
        destruct (decide (j = counter)) as [->|]; [by left|].
        right. exists j. split; [lia|done]. }
      exists r. split; [done|]. split; [done|]. split; [done|]. intros _.
      destruct (decide (os_path.join folder_path (numbered name ext counter)
                          ∈ existing)) as [Hin|Hnin].
      * destruct (Hlater Hin) as (k & Hk & -> & Hbelow).
        exists k. split; [lia|]. split; [done|]. intros j Hj.
        destruct (decide (j = counter)) as [->|]; [done|].
        apply Hbelow. lia.
      * exists counter. split; [lia|]. split; [by apply Hfirst|].
        intros j Hj. lia.
    + exists cur. by repeat split.
Qed.

End UniqueFilenameClaims.

(** *** The extension is kept *)

Section ExtensionFacts.

Import os_path FileManager.

Lemma rfind_None (c : N) (s : text) : rfind c s = None <-> c ∉ s.
Proof.
  induction s as [|a s IH]; simpl.
  - split; [intros _; apply not_elem_of_nil|done].
  - rewrite not_elem_of_cons. destruct (rfind c s) as [i|].
    + split; [done|]. intros [_ H]. by apply IH in H.
    + destruct (N.eqb_spec a c) as [->|Hne].
      * split; [done|]. by intros [? _].
      * split; [|done]. intros _. split; [done|]. by apply IH.
Qed.

Lemma rfind_Some (c : N) (s : text) (i : nat) :
  rfind c s = Some i -> s !! i = Some c /\ c ∉ drop (S i) s.
Proof.
  revert i. induction s as [|a s IH]; intros i; simpl; [done|].
  destruct (rfind c s) as [j|] eqn:E.
  - intros [= <-]. by apply IH.
  - destruct (N.eqb_spec a c) as [->|]; [|done]. intros [= <-].
    split; [done|]. rewrite drop_0. by apply rfind_None.
Qed.

Lemma rfind_app_notin (c : N) (p s : text) :
  c ∉ s -> rfind c (p ++ s) = rfind c p.
Proof.
  intros H. induction p as [|a p IH]; simpl.
  - by apply rfind_None.
  - by rewrite IH.
Qed.

Lemma rfind_app_in (c : N) (p s : text) (i : nat) :
  rfind c s = Some i -> rfind c (p ++ s) = Some (length p + i)%nat.
Proof.
  intros H. induction p as [|a p IH]; simpl; [done|]. by rewrite IH.
Qed.

(** The digits of a number are neither dots nor slashes. *)
Lemma str_of_nat_digits (k : nat) :
  Forall (fun c => 48 <= c <= 57) (Py.str_of_nat k).
Proof.
  unfold Py.str_of_nat.
  induction (Nat.to_uint k) as [|d IH|d IH|d IH|d IH|d IH|d IH|d IH|d IH
                                |d IH|d IH]; simpl;
    [constructor|constructor; [lia|done]..].
Qed.

Lemma suffix_plain (k : nat) (c : N) :
  c = extsep \/ c = sep -> c ∉ py "_" ++ Py.str_of_nat k.
Proof.
  intros Hc [Heq|Hin]%elem_of_cons.
  - destruct Hc as [->| ->]; by vm_compute in Heq.
  - pose proof (str_of_nat_digits k) as Hd. rewrite Forall_forall in Hd.
    apply Hd in Hin. unfold extsep, sep in Hc. lia.
Qed.

(** A name without extension has none after plain characters are put
    after it. *)
Lemma splitext_app_plain (p s : text) :
  extsep ∉ s -> sep ∉ s ->
  splitext p = (p, []) -> splitext (p ++ s) = (p ++ s, []).
Proof.
  intros Hdot Hsep. unfold splitext, after_last.
  rewrite !rfind_app_notin by done.
  destruct (rfind extsep p) as [di|] eqn:Hd; [|done].
  apply rfind_Some in Hd as [Hd _]. pose proof (lookup_lt_Some _ _ _ Hd).
  set (fi := match rfind sep p with Some i => S i | None => O end).
  destruct (bool_decide (fi <= di)%nat) eqn:Hfi; simpl; [|done].
  apply bool_decide_eq_true in Hfi.
  rewrite drop_app_le, take_app_le by (rewrite ?length_drop; lia).
  destruct (existsb _ _); [|done].
  intros [= _ Hnil]. apply (f_equal length) in Hnil.
  rewrite length_drop in Hnil. simpl in Hnil. lia.
Qed.

(** The numbered name splits into the numbered base and the extension of
    the file name. *)
Lemma splitext_numbered (filename : text) (k : nat) :
  splitext (numbered (splitext filename).1 (splitext filename).2 k)
  = ((splitext filename).1 ++ py "_" ++ Py.str_of_nat k,
     (splitext filename).2).
Proof.
  unfold numbered.
  pose proof (suffix_plain k extsep (or_introl eq_refl)) as Hdot.
  pose proof (suffix_plain k sep (or_intror eq_refl)) as Hsep.
  destruct (splitext filename) as [name ext] eqn:E. cbn [fst snd].
  assert (ext = [] -> name = filename ->
          splitext (name ++ py "_" ++ Py.str_of_nat k ++ ext)
          = (name ++ py "_" ++ Py.str_of_nat k, ext)) as Hplain.
  { intros -> ->. rewrite app_nil_r. by apply splitext_app_plain. }
  unfold splitext in E.
  destruct (rfind extsep filename) as [di|] eqn:Hd;
    [|injection E as <- <-; by apply Hplain].
  destruct (bool_decide _ && existsb _ _) eqn:Hc;
    [|injection E as <- <-; by apply Hplain].
  clear Hplain. injection E as <- <-.
  apply andb_true_iff in Hc as [Hfi%bool_decide_eq_true Hex].
  apply rfind_Some in Hd as [Hd Hlast].
  pose proof (lookup_lt_Some _ _ _ Hd) as Hlt.
  set (name := take di filename) in *.
  set (digits := py "_" ++ Py.str_of_nat k) in *.
  assert (length name = di) as Hname by (unfold name; rewrite length_take; lia).
  (* the extension: a dot, then no dot and no slash *)
  assert (sep ∉ drop di filename) as Hsep'.
  { unfold after_last in Hfi.
    destruct (rfind sep filename) as [si|] eqn:Hs.
    - apply rfind_Some in Hs as [_ Hs]. intros Hin. apply Hs.
      replace di with (S si + (di - S si))%nat in Hin by lia.
      rewrite <- drop_drop in Hin.
      eapply elem_of_sublist; [exact Hin|apply sublist_drop].
    - apply rfind_None in Hs. intros Hin. apply Hs.
      eapply elem_of_sublist; [exact Hin|apply sublist_drop]. }
  rewrite (drop_S _ _ _ Hd) in Hsep' |- *.
  set (rest := drop (S di) filename) in *.
  assert (after_last sep filename = after_last sep name) as Hfi'.
  { unfold after_last.
    rewrite <- (take_drop di filename) at 1. rewrite (drop_S _ _ _ Hd).
    by rewrite rfind_app_notin. }
  rewrite Hfi' in Hfi.
  change (name ++ py "_" ++ Py.str_of_nat k ++ extsep :: rest)
    with (name ++ digits ++ extsep :: rest).
  unfold splitext.
  assert (rfind extsep (name ++ digits ++ extsep :: rest)
          = Some (length (name ++ digits))) as ->.
  { rewrite (app_assoc name). rewrite (rfind_app_in _ _ _ 0); [by rewrite Nat.add_0_r|].
    apply rfind_None in Hlast. fold rest in Hlast.
    cbn [rfind]. by rewrite Hlast. }
  assert (after_last sep (name ++ digits ++ extsep :: rest)
          = after_last sep name) as ->.
  { unfold after_last. rewrite rfind_app_notin; [done|].
    rewrite not_elem_of_app. by split. }
  rewrite (app_assoc name), take_app_length, drop_app_length.
  rewrite bool_decide_eq_true_2 by (rewrite length_app; lia).
  assert (existsb (fun c => negb (c =? extsep))
            (take (length (name ++ digits) - after_last sep name)
               (drop (after_last sep name)
                  ((name ++ digits) ++ extsep :: rest))) = true) as ->.
  { rewrite drop_app_le by (rewrite length_app; lia).
    rewrite take_app_le by (rewrite length_drop; lia).
    rewrite firstn_all2 by (rewrite length_drop; lia).
    rewrite drop_app_le by lia. rewrite existsb_app.
    apply orb_true_iff. right. done. }
  done.
Qed.

End ExtensionFacts.

(** C10. [ensure_unique_filename] returns, and the name it returns is free
    in the folder. It is the file name itself when that is free; otherwise
    it is [name_k.ext] for the first [k] from 1 on whose path is free, with
    [name] and [ext] the two parts [os.path.splitext] gives for the file
    name. In both cases the extension of the returned name is the extension
    of the file name. *)
Theorem ensure_unique_filename_free (existing : gset text)
  (folder_path filename : text) :
  exists r,
    FileManager.ensure_unique_filename existing folder_path filename = Some r
    /\ (os_path.join folder_path r ∉ existing)
    /\ (os_path.splitext r).2 = (os_path.splitext filename).2
    /\ (os_path.join folder_path filename ∉ existing -> r = filename)
    /\ (os_path.join folder_path filename ∈ existing ->
        exists k, (1 <= k)%nat
          /\ r = (os_path.splitext filename).1 ++ py "_"
                 ++ Py.str_of_nat k ++ (os_path.splitext filename).2
          /\ forall j, (1 <= j < k)%nat ->
               os_path.join folder_path
                 ((os_path.splitext filename).1 ++ py "_"
                  ++ Py.str_of_nat j ++ (os_path.splitext filename).2)
                 ∈ existing).
Proof.
  unfold FileManager.ensure_unique_filename.
  pose proof (splitext_numbered filename) as Hext.
  destruct (os_path.splitext filename) as [name ext] eqn:E. cbn [fst snd] in *.
  destruct (probe_filenames_spec existing folder_path name ext
              (S (size existing)) 1 filename)
    as (r & Hr & Hfree & Hfirst & Hlater).
  { right. apply some_round_free. }
  exists r. split; [done|]. split; [done|]. split; [|by split].
  destruct (decide (os_path.join folder_path filename ∈ existing))
    as [Hin|Hnin].
  - destruct (Hlater Hin) as (k & _ & -> & _). by rewrite Hext.
  - rewrite (Hfirst Hnin). by rewrite E.
Qed.

Example ensure_unique_filename_example :
  FileManager.ensure_unique_filename
    {[ py "posts/a.png"; py "posts/a_1.png"; py "posts/b.png" ]}
    (py "posts") (py "a.png") = Some (py "a_2.png")
  /\ FileManager.ensure_unique_filename
       {[ py "posts/a.png" ]} (py "posts") (py "c.tar.gz")
     = Some (py "c.tar.gz").
Proof. split; vm_compute; reflexivity. Qed.

(** * Further properties *)

(** ** The text cache *)

Section CacheExtras.

Import TextCache MarkdownEditor.

Variable isalpha : N -> bool.
Variable md5_hexdigest : text -> text.

Local Abbreviation ranked dir := (merge_sort newer_first (listed_files dir)).
Local Abbreviation entry now t :=
  (RegularFile now (Some (CacheJson (chunk_text chunk_size t) now))).

Lemma chunk_text_lookup (size : nat) (t : text) (i : nat) (c : text) :
  chunk_text size t !! i = Some c ->
  (i < (length t + size - 1) / size)%nat /\ c = take size (drop (i * size) t).
Proof.
  unfold chunk_text, range_step. rewrite !list_lookup_fmap.
  destruct (seq 0 _ !! i) as [k|] eqn:E; [|done].
  apply lookup_seq in E as [-> Hi]. simpl. by intros [= <-].
Qed.

(** X1. The chunks written to a cache file: there are
    ceil(len(text) / size) of them, none is empty, none is longer than the
    chunk size, and every chunk but the last has exactly the chunk size. The
    empty text has no chunk. *)
Theorem chunk_text_sizes (size : nat) (t : text) :
  (0 < size)%nat ->
  length (chunk_text size t) = ((length t + size - 1) / size)%nat
  /\ Forall (fun c => 0 < length c <= size)%nat (chunk_text size t)
  /\ (forall i c, chunk_text size t !! i = Some c ->
                  (S i < length (chunk_text size t))%nat ->
                  length c = size)
  /\ (t = [] -> chunk_text size t = []).
Proof.
  intros Hs.
  assert (length (chunk_text size t) = ((length t + size - 1) / size)%nat)
    as Hlen.
  { unfold chunk_text, range_step. by rewrite !length_fmap, length_seq. }
  pose proof (Nat.div_mod_eq (length t + size - 1) size) as Hdm.
  pose proof (Nat.mod_upper_bound (length t + size - 1) size) as Hm.
  split; [done|]. split; [|split].
  - apply Forall_forall. intros c [i Hi]%list_elem_of_lookup.
    apply chunk_text_lookup in Hi as [Hi ->].
    rewrite length_take, length_drop. nia.
  - intros i c Hi Hnext. rewrite Hlen in Hnext.
    apply chunk_text_lookup in Hi as [_ ->].
    rewrite length_take, length_drop. nia.
  - intros ->. apply nil_length_inv. rewrite Hlen. simpl.
    apply Nat.div_small. lia.
Qed.

(** X2. The cleanup is idempotent, and it leaves a directory of at most
    [cache_size] files as it is. *)
Theorem cleanup_idempotent (dir : gmap text dirent) :
  _cleanup_old_cache (_cleanup_old_cache dir) = _cleanup_old_cache dir
  /\ ((length (listed_files dir) <= cache_size)%nat ->
      _cleanup_old_cache dir = dir).
Proof.
  split; [|apply cleanup_id]. apply cleanup_id. rewrite cleanup_count. lia.
Qed.

(** X3. The cleanup removes regular files only: a subdirectory of the
    cache directory is there afterwards, and none appears. *)
Theorem cleanup_keeps_subdirectories (dir : gmap text dirent) (n : text)
  (m : Z) :
  _cleanup_old_cache dir !! n = Some (Subdirectory m)
  <-> dir !! n = Some (Subdirectory m).
Proof.
  rewrite cleanup_lookup. case_decide as Hin; [|done].
  split; [done|]. intros Hsub. exfalso.
  apply list_elem_of_fmap in Hin as [[n' m'] [-> Hin]].
  assert ((n', m') ∈ listed_files dir) as Hl.
  { rewrite <- (merge_sort_Permutation newer_first).
    eapply elem_of_sublist; [exact Hin|apply sublist_drop]. }
  apply elem_of_listed_files in Hl as [d Hl]. simpl in Hsub. congruence.
Qed.

Lemma listed_insert_present (dir : gmap text dirent) (key : text)
  (m now : Z) d d' :
  dir !! key = Some (RegularFile m d) ->
  length (listed_files (<[key := RegularFile now d']> dir))
  = length (listed_files dir).
Proof.
  intros Hkey. apply Nat.le_antisymm; [|apply listed_insert_length].
  rewrite <- (length_fmap fst (listed_files dir)).
  rewrite <- (length_fmap fst (listed_files (<[key := _]> dir))).
  apply submseteq_length, NoDup_submseteq; [apply listed_files_NoDup|].
  intros n. rewrite !names_listed. intros (m' & d'' & Hn).
  destruct (decide (n = key)) as [Heq|Hne].
  - rewrite Heq. eauto.
  - rewrite lookup_insert_ne in Hn by done. eauto.
Qed.

(** X4. Saving a text whose file is already in the cache (the directory
    holding at most [cache_size] files, as after any save) gives the same
    key, rewrites that one file and removes nothing: the directory keeps
    its names. *)
Theorem save_to_cache_again (now : Z) (t : text) (dir : gmap text dirent)
  (m : Z) (d : option cache_json) :
  dir !! md5_hexdigest t = Some (RegularFile m d) ->
  (length (listed_files dir) <= cache_size)%nat ->
  save_to_cache md5_hexdigest true now t dir
  = (Some (md5_hexdigest t), <[md5_hexdigest t := entry now t]> dir)
  /\ dom (save_to_cache md5_hexdigest true now t dir).2 = dom dir.
Proof.
  intros Hkey Hlen.
  assert (save_to_cache md5_hexdigest true now t dir
          = (Some (md5_hexdigest t),
             <[md5_hexdigest t := entry now t]> dir)) as ->.
  { rewrite save_to_cache_writes by (intros m'; by rewrite Hkey).
    rewrite cleanup_id; [done|].
    by rewrite (listed_insert_present _ _ m now d). }
  split; [done|]. cbn [snd]. rewrite dom_insert_L.
  apply elem_of_dom_2 in Hkey.
  by apply subseteq_union_1_L, singleton_subseteq_l.
Qed.

(** The file of a text saved with the clock ahead of the directory is in
    the directory after the cleanup. *)
Lemma saved_file_present (now : Z) (t : text) (dir : gmap text dirent) :
  (forall m, dir !! md5_hexdigest t <> Some (Subdirectory m)) ->
  (forall n m d, dir !! n = Some (RegularFile m d) -> (m < now)%Z) ->
  save_to_cache md5_hexdigest true now t dir
  = (Some (md5_hexdigest t),
     (save_to_cache md5_hexdigest true now t dir).2)
  /\ (save_to_cache md5_hexdigest true now t dir).2 !! md5_hexdigest t
     = Some (entry now t).
Proof.
  intros Hreg Hold. rewrite (save_to_cache_writes _ _ _ _ Hreg). cbn [snd].
  split; [done|].
  set (key := md5_hexdigest t). set (written := <[key := _]> dir).
  rewrite cleanup_lookup.
  destruct (ranked_head_newest written key now
              (Some (CacheJson (chunk_text chunk_size t) now)))
    as [rest Hrest].
  { apply lookup_insert_eq. }
  { intros n m d' Hne. unfold written. rewrite lookup_insert_ne by done.
    apply Hold. }
  rewrite decide_False; [apply lookup_insert_eq|].
  pose proof (ranked_NoDup written) as Hnd. rewrite Hrest in Hnd.
  rewrite Hrest. unfold cache_size. cbn [drop].
  apply NoDup_cons in Hnd as [Hnd _]. intros Hin. apply Hnd.
  eapply elem_of_sublist; [exact Hin|]. apply fmap_sublist, sublist_drop.
Qed.

(** X5. Once [setPlainText] has cached a text, [toPlainText] reads the
    cache file and not the widget: whatever the widget's own buffer holds
    afterwards (text typed in is not sent to the cache), the text that was
    set is returned as long as its file is there. *)
Theorem toPlainText_prefers_cache (now : Z) (t : text) (e : MarkdownEditor.t)
  (buffer : text) (wc : nat) :
  md5_hexdigest t <> [] ->
  (forall m, text_cache e !! md5_hexdigest t <> Some (Subdirectory m)) ->
  (forall n m d, text_cache e !! n = Some (RegularFile m d) -> (m < now)%Z) ->
  toPlainText
    (Editor
       (text_cache (setPlainText isalpha md5_hexdigest true now t e))
       (current_cache_key (setPlainText isalpha md5_hexdigest true now t e))
       buffer wc)
  = t.
Proof.
  intros Hkey Hreg Hold. unfold setPlainText.
  destruct (saved_file_present now t (text_cache e) Hreg Hold)
    as [Hsave Hfile].
  destruct (save_to_cache md5_hexdigest true now t (text_cache e))
    as [key dir'] eqn:E.
  cbn [snd] in Hsave, Hfile. injection Hsave as ->.
  unfold toPlainText. cbn.
  assert (Py.truthy (md5_hexdigest t) = true) as ->
    by by destruct (md5_hexdigest t).
  rewrite Hfile. cbn.
  by rewrite chunk_text_concat by apply chunk_size_pos.
Qed.

End CacheExtras.

Lemma chunk_text_sizes_witness :
  length (TextCache.chunk_text 4 (py "hello world")) = 3%nat.
Proof. apply (chunk_text_sizes 4 (py "hello world")). lia. Defined.

Lemma save_to_cache_again_witness :
  dom (TextCache.save_to_cache sum_digest true 100 (py "hello")
         {[ py "532" := TextCache.RegularFile 7 None ]}).2
  = dom ({[ py "532" := TextCache.RegularFile 7 None ]}
           : gmap text TextCache.dirent).
Proof.
  apply (save_to_cache_again sum_digest 100 (py "hello")
           {[ py "532" := TextCache.RegularFile 7 None ]} 7 None).
  - vm_compute. reflexivity.
  - vm_compute. lia.
Defined.

Lemma toPlainText_prefers_cache_witness :
  MarkdownEditor.toPlainText
    (MarkdownEditor.Editor
       (MarkdownEditor.text_cache
          (MarkdownEditor.setPlainText isalpha_ascii_cjk sum_digest true 100
             (py "hello") (MarkdownEditor.Editor sample_cache None [] 0)))
       (MarkdownEditor.current_cache_key
          (MarkdownEditor.setPlainText isalpha_ascii_cjk sum_digest true 100
             (py "hello") (MarkdownEditor.Editor sample_cache None [] 0)))
       (py "hello, typed") 0)
  = py "hello".
Proof.
  apply (toPlainText_prefers_cache isalpha_ascii_cjk sum_digest 100
           (py "hello") (MarkdownEditor.Editor sample_cache None [] 0)).
  - vm_compute. discriminate.
  - intros m. vm_compute. discriminate.
  - apply sample_cache_old.
Defined.

(** ** The frontmatter block and the file manager *)

Section FileManagerExtras.

Variable yaml_dump : pyval -> option text.
Variable yaml_safe_load : text -> option pyval.

Lemma split_once_starts (sep s : text) :
  Py.startswith sep s = true ->
  Py.split_once sep s = Some ([], drop (length sep) s).
Proof. intros H. by rewrite split_once_unfold, H. Qed.

Lemma split_unterminated (content : text) :
  Py.startswith (py "---") content = true ->
  Py.contains (py "---") (drop 3 content) = false ->
  Py.split (py "---") 2 content = [[]; drop 3 content].
Proof.
  intros Hs Hc. cbn [Py.split]. rewrite (split_once_starts _ _ Hs).
  change (length (py "---")) with 3%nat. unfold Py.contains in Hc.
  by destruct (Py.split_once (py "---") (drop 3 content)).
Qed.

(** X6. A document that opens a frontmatter block and never closes it is
    not imported: [import_markdown] raises [FileOperationError], as it does
    for a file that cannot be read. *)
Theorem import_markdown_unterminated (disk : gmap text text)
  (file_path content : text) :
  disk !! file_path = Some content ->
  Py.startswith (py "---") content = true ->
  Py.contains (py "---") (drop 3 content) = false ->
  FileManager.import_markdown yaml_safe_load disk file_path
    = Raise FileOperationError
  /\ FileManager.import_markdown yaml_safe_load (delete file_path disk)
       file_path = Raise FileOperationError.
Proof.
  intros Hd Hs Hc. unfold FileManager.import_markdown.
  rewrite Hd, Hs, (split_unterminated _ Hs Hc), lookup_delete_eq. done.
Qed.

(** X7. What follows the closing delimiter is the body, whatever it holds:
    further [---] lines in it are not cut. The block must be free of
    delimiters and parse. *)
Theorem import_markdown_body_after_block (disk : gmap text text)
  (file_path block rest : text) (metadata : pyval) :
  disk !! file_path = Some (py "---" ++ block ++ py "---" ++ rest) ->
  Py.contains (py "---") (block ++ py "--") = false ->
  yaml_safe_load block = Some metadata ->
  FileManager.import_markdown yaml_safe_load disk file_path
    = Ok (Py.strip rest, metadata).
Proof.
  intros Hd Hfree Hy. unfold FileManager.import_markdown.
  rewrite Hd, startswith_app. cbn [Py.split].
  by rewrite split_once_prefix, (split_once_closing _ _ Hfree), Hy.
Qed.

Lemma copy_images_frame (article_folder : text) (images : list (text * text))
  (disk disk1 : gmap text text) (content content1 p : text) :
  FileManager.copy_images article_folder images disk content
    = Some (disk1, content1) ->
  (forall src dest, (src, dest) ∈ images ->
                    p <> os_path.join article_folder dest) ->
  disk1 !! p = disk !! p.
Proof.
  revert disk content. induction images as [|[src dest] images IH];
    intros disk content Hcopy Hp.
  { by injection Hcopy as <- _. }
  cbn [FileManager.copy_images] in Hcopy.
  assert (forall src' dest', (src', dest') ∈ images ->
            p <> os_path.join article_folder dest') as Hrest.
  { intros src' dest' Hin. apply (Hp src'). by right. }
  destruct (disk !! src) as [data|]; [|by apply (IH _ _ Hcopy)].
  case_bool_decide; [done|]. rewrite (IH _ _ Hcopy Hrest).
  rewrite lookup_insert_ne; [done|]. intros Heq. by apply (Hp src dest); [left|].
Qed.

(** An image that exists and is its own destination stops the loop:
    [shutil.copy2] raises. *)
Lemma copy_images_same_file (article_folder : text)
  (images : list (text * text)) (disk : gmap text text) (content : text)
  (src dest : text) :
  (src, dest) ∈ images ->
  is_Some (disk !! src) ->
  src = os_path.join article_folder dest ->
  FileManager.copy_images article_folder images disk content = None.
Proof.
  intros Hin Hsrc Heq. revert disk content Hsrc.
  induction images as [|[src0 dest0] images IH]; intros disk content Hsrc.
  { by apply elem_of_nil in Hin. }
  cbn [FileManager.copy_images].
  apply elem_of_cons in Hin as [[= <- <-]|Hin].
  - destruct Hsrc as [data ->]. by rewrite bool_decide_true.
  - destruct (disk !! src0) as [data|]; [|by apply IH].
    case_bool_decide; [done|]. apply IH; [done|].
    destruct (decide (src = os_path.join article_folder dest0)) as [E|E].
    + rewrite E. by rewrite lookup_insert_eq.
    + by rewrite lookup_insert_ne.
Qed.

(** X8. [save_blog] raises when no save path is configured, when the
    metadata cannot be dumped, and when an image that exists is its own
    destination. When it returns, the folder is the save path joined with
    the folder name, [index.md] holds the dumped metadata between two
    delimiters, an empty line and the content the image loop left, and the
    only other paths written are the destinations of the images. *)
Theorem save_blog_writes (write_ok : bool) (config : gmap string text)
  (disk : gmap text text) (folder_name content : text) (metadata : pyval)
  (images : list (text * text)) :
  (ConfigManager.get config "save_path" [] = [] ->
   FileManager.save_blog yaml_dump write_ok config disk folder_name content
     metadata images = Raise FileOperationError)
  /\ (yaml_dump metadata = None ->
      FileManager.save_blog yaml_dump write_ok config disk folder_name content
        metadata images = Raise FileOperationError)
  /\ (forall src dest,
        (src, dest) ∈ images ->
        is_Some (disk !! src) ->
        src = os_path.join
                (os_path.join (ConfigManager.get config "save_path" [])
                   folder_name) dest ->
        FileManager.save_blog yaml_dump write_ok config disk folder_name
          content metadata images = Raise FileOperationError)
  /\ forall article_folder disk',
       FileManager.save_blog yaml_dump write_ok config disk folder_name
         content metadata images = Ok (article_folder, disk') ->
       article_folder
       = os_path.join (ConfigManager.get config "save_path" []) folder_name
       /\ (exists frontmatter disk1 content1,
             yaml_dump metadata = Some frontmatter
             /\ FileManager.copy_images article_folder images disk content
                = Some (disk1, content1)
             /\ disk'
                = <[os_path.join article_folder (py "index.md") :=
                      py "---" ++ nl ++ frontmatter ++ py "---" ++ nl ++ nl
                      ++ content1]> disk1)
       /\ forall p,
            p <> os_path.join article_folder (py "index.md") ->
            (forall src dest, (src, dest) ∈ images ->
                              p <> os_path.join article_folder dest) ->
            disk' !! p = disk !! p.
Proof.
  unfold FileManager.save_blog, FileManager._generate_frontmatter.
  destruct (ConfigManager.get config "save_path" []) as [|c sp] eqn:Hsp.
  { done. }
  cbn [Py.truthy negb]. destruct write_ok; [|done]. cbn [negb].
  split; [done|]. split; [|split].
  - intros ->. by destruct (FileManager.copy_images _ _ _ _) as [[??]|].
  - intros src dest Hin Hsrc Heq.
    by rewrite (copy_images_same_file _ _ _ _ _ _ Hin Hsrc Heq).
  - intros article_folder disk'.
    destruct (FileManager.copy_images _ images disk content)
      as [[disk1 content1]|] eqn:Hcopy; [|done].
    destruct (yaml_dump metadata) as [frontmatter|]; [|done].
    destruct (io.encodable _); [|done].
    intros [= <- <-]. split; [done|]. split; [by eexists _, _, _|].
    intros p Hp Himg. rewrite lookup_insert_ne by done.
    by apply (copy_images_frame _ _ _ _ _ _ _ Hcopy).
Qed.

End FileManagerExtras.

Lemma import_markdown_unterminated_witness :
  FileManager.import_markdown FlatYaml.load
    {[ py "post.md" := py "---" ++ nl ++ py "title: Hi" ++ nl ++ py "Body" ]}
    (py "post.md") = Raise FileOperationError.
Proof.
  apply (import_markdown_unterminated FlatYaml.load
           {[ py "post.md" := py "---" ++ nl ++ py "title: Hi" ++ nl
                              ++ py "Body" ]}
           (py "post.md")
           (py "---" ++ nl ++ py "title: Hi" ++ nl ++ py "Body"));
    vm_compute; reflexivity.
Defined.

Lemma import_markdown_body_after_block_witness :
  FileManager.import_markdown FlatYaml.load
    {[ py "post.md" :=
         py "---" ++ (nl ++ py "title: Hi" ++ nl) ++ py "---"
         ++ (nl ++ py "One" ++ nl ++ py "---" ++ nl ++ py "Two" ++ nl) ]}
    (py "post.md")
  = Ok (Py.strip (nl ++ py "One" ++ nl ++ py "---" ++ nl ++ py "Two" ++ nl),
        sample_metadata).
Proof.
  apply (import_markdown_body_after_block FlatYaml.load
           {[ py "post.md" :=
                py "---" ++ (nl ++ py "title: Hi" ++ nl) ++ py "---"
                ++ (nl ++ py "One" ++ nl ++ py "---" ++ nl ++ py "Two"
                    ++ nl) ]}
           (py "post.md") (nl ++ py "title: Hi" ++ nl)
           (nl ++ py "One" ++ nl ++ py "---" ++ nl ++ py "Two" ++ nl)
           sample_metadata);
    vm_compute; reflexivity.
Defined.

(** ** The editor's own import *)

Section EditorImportExtras.

Import TextCache MarkdownEditor.

Variable isalpha : N -> bool.
Variable md5_hexdigest : text -> text.
Variable yaml_safe_load : text -> option pyval.

Lemma setPlainText_read (write_ok : bool) (now : Z) (txt : text)
  (e : MarkdownEditor.t) :
  toPlainText (setPlainText isalpha md5_hexdigest write_ok now txt e) = txt
  \/ toPlainText (setPlainText isalpha md5_hexdigest write_ok now txt e)
     = QTextEdit.plain_text txt.
Proof.
  unfold setPlainText.
  destruct (save_to_cache _ _ _ _ _) as [key dir] eqn:E.
  rewrite update_statistics_text.
  destruct (toPlainText_cached_or_widget dir key (QTextEdit.plain_text txt)
              txt (word_count e) now) as [[? _]|[? _]]; auto.
  intros k ->. by apply saved_file_cases in E as [_ ?].
Qed.

(** X9. The import of the editor either leaves the editor as it was or
    sets a stripped text, which the editor then reads back from the cache
    or, as the widget gives it, from the widget. It leaves the editor as it
    was when the file cannot be read and when the document opens a
    frontmatter block without closing it: that document is not loaded at
    all. When the parent's [update_metadata] raises, the block is put back
    into the body, as it is when the block does not parse. Without such a
    parent the method is [import_markdown]. *)
Theorem editor_import_markdown (update_metadata : option (pyval -> bool))
  (disk : gmap text text) (file_name : text) (write_ok : bool) (now : Z)
  (e : MarkdownEditor.t) :
  ((import_markdown_in isalpha md5_hexdigest update_metadata yaml_safe_load
      disk file_name write_ok now e).1 = e
   \/ exists txt,
        Py.has_outer_space txt = false
        /\ (import_markdown_in isalpha md5_hexdigest update_metadata
              yaml_safe_load disk file_name write_ok now e).1
           = update_statistics isalpha
               (setPlainText isalpha md5_hexdigest write_ok now txt e)
        /\ (toPlainText
              (import_markdown_in isalpha md5_hexdigest update_metadata
                 yaml_safe_load disk file_name write_ok now e).1 = txt
            \/ toPlainText
                 (import_markdown_in isalpha md5_hexdigest update_metadata
                    yaml_safe_load disk file_name write_ok now e).1
               = QTextEdit.plain_text txt))
  /\ (disk !! file_name = None ->
      import_markdown_in isalpha md5_hexdigest update_metadata yaml_safe_load
        disk file_name write_ok now e = (e, None))
  /\ (forall content,
        disk !! file_name = Some content ->
        Py.startswith (py "---") content = true ->
        Py.contains (py "---") (drop 3 content) = false ->
        import_markdown_in isalpha md5_hexdigest update_metadata
          yaml_safe_load disk file_name write_ok now e = (e, None))
  /\ (forall update content a f c metadata,
        update_metadata = Some update ->
        file_name <> [] ->
        disk !! file_name = Some content ->
        Py.startswith (py "---") content = true ->
        Py.split (py "---") 2 content = [a; f; c] ->
        yaml_safe_load f = Some metadata ->
        update metadata = false ->
        (import_markdown_in isalpha md5_hexdigest update_metadata
           yaml_safe_load disk file_name write_ok now e).1
        = update_statistics isalpha
            (setPlainText isalpha md5_hexdigest write_ok now
               (Py.strip (f ++ py "---" ++ c)) e))
  /\ import_markdown_in isalpha md5_hexdigest None yaml_safe_load disk
       file_name write_ok now e
     = import_markdown isalpha md5_hexdigest yaml_safe_load disk file_name
         write_ok now e.
Proof.
  assert (forall txt,
            exists txt',
              Py.has_outer_space txt' = false
              /\ update_statistics isalpha
                   (setPlainText isalpha md5_hexdigest write_ok now
                      (Py.strip txt) e)
                 = update_statistics isalpha
                     (setPlainText isalpha md5_hexdigest write_ok now txt' e)
              /\ (toPlainText
                    (update_statistics isalpha
                       (setPlainText isalpha md5_hexdigest write_ok now
                          (Py.strip txt) e)) = txt'
                  \/ toPlainText
                       (update_statistics isalpha
                          (setPlainText isalpha md5_hexdigest write_ok now
                             (Py.strip txt) e))
                     = QTextEdit.plain_text txt')) as Hset.
  { intros txt. exists (Py.strip txt).
    split; [apply strip_no_outer_space|]. split; [done|].
    rewrite update_statistics_text. apply setPlainText_read. }
  unfold import_markdown_in, import_markdown.
  split; [|split; [|split; [|split]]].
  - destruct (Py.truthy file_name); [|by left]. cbn [negb].
    destruct (disk !! file_name) as [content|]; [|by left].
    destruct (Py.startswith (py "---") content); [|right; apply Hset].
    destruct (Py.split (py "---") 2 content) as [|? [|f [|c [|??]]]];
      try by left.
    right. cbn [fst]. apply Hset.
  - intros ->. by destruct (negb (Py.truthy file_name)).
  - intros content -> Hs Hc. rewrite Hs, (split_unterminated _ Hs Hc).
    by destruct (negb (Py.truthy file_name)).
  - intros update content a f c metadata -> Hname -> -> -> -> ->.
    by destruct file_name.
  - destruct (negb (Py.truthy file_name)); [done|].
    destruct (disk !! file_name) as [content|]; [|done].
    destruct (Py.startswith (py "---") content); [|done].
    destruct (Py.split (py "---") 2 content) as [|? [|f [|c [|??]]]];
      try done.
    by destruct (yaml_safe_load f).
Qed.

End EditorImportExtras.

(** ** Unique file names *)

Section UniqueFilenameExtras.

Import FileManager.

Lemma ensure_unique_filename_some (existing : gset text)
  (folder_path filename : text) :
  exists r, ensure_unique_filename existing folder_path filename = Some r
            /\ os_path.join folder_path r ∉ existing.
Proof.
  unfold ensure_unique_filename.
  destruct (os_path.splitext filename) as [name ext].
  destruct (probe_filenames_spec existing folder_path name ext
              (S (size existing)) 1 filename) as (r & Hr & Hfree & _).
  { right. apply some_round_free. }
  eauto.
Qed.

(** X10. A name returned by [ensure_unique_filename] is returned again
    when asked for itself, and once a file is created under it the next
    call for the same file name returns another name, free as well. *)
Theorem ensure_unique_filename_next (existing : gset text)
  (folder_path filename r : text) :
  ensure_unique_filename existing folder_path filename = Some r ->
  ensure_unique_filename existing folder_path r = Some r
  /\ exists r',
       ensure_unique_filename ({[os_path.join folder_path r]} ∪ existing)
         folder_path filename = Some r'
       /\ r' <> r
       /\ os_path.join folder_path r' ∉ existing.
Proof.
  intros Hr.
  destruct (ensure_unique_filename_some existing folder_path filename)
    as (r0 & Hr0 & Hfree).
  rewrite Hr in Hr0. injection Hr0 as <-. split.
  - unfold ensure_unique_filename.
    destruct (os_path.splitext r) as [name ext]. cbn [probe_filenames].
    by rewrite bool_decide_eq_false_2.
  - destruct (ensure_unique_filename_some
                ({[os_path.join folder_path r]} ∪ existing) folder_path
                filename) as (r' & Hr' & Hfree').
    exists r'. split; [done|].
    apply not_elem_of_union in Hfree' as [Hne Hfree'].
    split; [|done]. intros ->. by apply Hne, elem_of_singleton.
Qed.

End UniqueFilenameExtras.

Lemma ensure_unique_filename_next_witness :
  FileManager.ensure_unique_filename {[ py "posts/a.png" ]} (py "posts")
    (py "a_1.png") = Some (py "a_1.png").
Proof.
  apply (ensure_unique_filename_next {[ py "posts/a.png" ]} (py "posts")
           (py "a.png") (py "a_1.png")).
  vm_compute. reflexivity.
Defined.

(** ** The preview *)

Section PreviewExtras.

Import BlogEditor.

Variable cwd : text.

Lemma lazy_until_unfold (lit s : text) :
  lazy_until lit s =
  if Py.startswith lit s then Some ([], drop (length lit) s)
  else match s with
       | [] => None
       | c :: s' =>
         if c =? 10 then None
         else match lazy_until lit s' with
              | Some (a, b) => Some (c :: a, b)
              | None => None
              end
       end.
Proof. by destruct s. Qed.

Lemma startswith_drop (p s : text) :
  Py.startswith p s = true -> s = p ++ drop (length p) s.
Proof.
  revert s. induction p as [|x p IH]; intros s H; [by rewrite drop_0|].
  destruct s as [|y s]; [done|]. simpl in H.
  apply andb_true_iff in H as [Hxy H]. apply N.eqb_eq in Hxy as ->.
  simpl. f_equal. by apply IH.
Qed.

(** What the lazy scan returns are the two sides of the literal. *)
Lemma lazy_until_app (lit s a b : text) :
  lazy_until lit s = Some (a, b) -> s = a ++ lit ++ b.
Proof.
  revert a b. induction s as [|c s IH]; intros a b;
    rewrite lazy_until_unfold.
  - destruct (Py.startswith lit []) eqn:Hs; [|done]. intros [= <- <-].
    by apply startswith_drop.
  - destruct (Py.startswith lit (c :: s)) eqn:Hs.
    + intros [= <- <-]. by apply startswith_drop.
    + destruct (c =? 10); [done|].
      destruct (lazy_until lit s) as [[a' b']|]; [|done].
      intros [= <- <-]. simpl. f_equal. by apply IH.
Qed.

(** A match is the text it stands on. *)
Lemma match_image_app (md alt path : text) (len : nat) :
  match_image md = Some (alt, path, len) ->
  len = length (py "![" ++ alt ++ py "](" ++ path ++ py ")")
  /\ md = (py "![" ++ alt ++ py "](" ++ path ++ py ")") ++ drop len md.
Proof.
  unfold match_image. destruct (Py.startswith (py "![") md) eqn:Hs; [|done].
  apply startswith_drop in Hs. change (length (py "![")) with 2%nat in Hs.
  destruct (lazy_until (py "](") (drop 2 md)) as [[alt' r]|] eqn:H1; [|done].
  destruct (lazy_until (py ")") r) as [[path' r']|] eqn:H2; [|done].
  intros [= <- <- <-]. apply lazy_until_app in H1, H2. subst r.
  assert (md = (py "![" ++ alt' ++ py "](" ++ path' ++ py ")") ++ r') as Hmd.
  { rewrite Hs, H1. by rewrite <- !app_assoc. }
  split.
  - rewrite !length_app. simpl. lia.
  - rewrite Hmd at 1. f_equal. rewrite Hmd at 1.
    rewrite drop_app_length'; [done|]. rewrite !length_app. simpl. lia.
Qed.

Lemma re_sub_image_skip (repl : text -> text -> text) (k : nat) (md : text) :
  re_sub_image repl k md = re_sub_image repl 0 (drop k md).
Proof.
  revert k. induction md as [|c md IH]; intros [|k]; try done.
  cbn [re_sub_image drop]. apply IH.
Qed.

Lemma image_matches_skip (k : nat) (md : text) :
  image_matches k md = image_matches 0 (drop k md).
Proof.
  revert k. induction md as [|c md IH]; intros [|k]; try done.
  cbn [image_matches drop]. apply IH.
Qed.

Lemma replace_path_url (w : BlogEditor.t) (alt path : text) :
  is_url path = true ->
  replace_path cwd w alt path = py "![" ++ alt ++ py "](" ++ path ++ py ")".
Proof. unfold replace_path, is_url. by intros ->. Qed.

Lemma path_to_url_urls_bounded (w : BlogEditor.t) (n : nat) (md : text) :
  (length md <= n)%nat ->
  Forall (fun m : text * text => is_url m.2 = true) (image_matches 0 md) ->
  re_sub_image (replace_path cwd w) 0 md = md.
Proof.
  revert md. induction n as [|n IH]; intros md Hlen Hall.
  - destruct md; [done|simpl in Hlen; lia].
  - destruct md as [|c md]; [done|].
    cbn [re_sub_image image_matches] in *.
    destruct (match_image (c :: md)) as [[[alt path] len]|] eqn:Hm.
    + apply match_image_app in Hm as [Hl Hmd].
      apply Forall_cons in Hall as [Hurl Hall]. cbn [snd] in Hurl.
      rewrite replace_path_url by done.
      rewrite re_sub_image_skip. rewrite image_matches_skip in Hall.
      assert (drop (len - 1) md = drop len (c :: md)) as Hd.
      { destruct len as [|len'];
          [rewrite !length_app in Hl; simpl in Hl; lia|].
        simpl. by rewrite Nat.sub_0_r. }
      rewrite Hd in *. rewrite IH; [by rewrite <- !app_assoc in *| |done].
      rewrite length_drop. rewrite !length_app in Hl. simpl in *. lia.
    + f_equal. apply IH; [simpl in Hlen; lia|done].
Qed.

(** X11. The preview leaves a text as it is when every image reference in
    it is an http, https or file URL, and so when it holds no image at
    all. *)
Theorem path_to_url_urls (w : BlogEditor.t) (md : text) :
  Forall (fun m : text * text => is_url m.2 = true) (image_matches 0 md) ->
  path_to_url cwd w md = md.
Proof. apply (path_to_url_urls_bounded w (length md)). lia. Qed.

Lemma normpath_abs (p : text) :
  os_path.isabs p = true -> os_path.isabs (os_path.normpath p) = true.
Proof.
  unfold os_path.isabs, os_path.normpath. intros Hp.
  destruct p as [|c p]; [done|]. cbn [Py.truthy negb]. rewrite Hp.
  destruct (_ && _); by cbn.
Qed.

Lemma abspath_abs (p : text) :
  os_path.isabs cwd = true -> os_path.isabs (os_path.abspath cwd p) = true.
Proof.
  intros Hc. unfold os_path.abspath.
  destruct (os_path.isabs p) eqn:Hp; apply normpath_abs; [done|].
  unfold os_path.join. unfold os_path.isabs in Hp. rewrite Hp.
  unfold os_path.isabs in *. destruct cwd as [|c0 cwd0]; [done|].
  cbn [Py.truthy negb orb]. destruct (Py.endswith _ _); simpl in *;
    by rewrite ?andb_true_r in *.
Qed.

(** X12. A reference that is not a URL becomes a [file:///] URL of an
    absolute, normalized path: the path joined to the directory name of the
    save path when it starts with [./] or [../], the path taken from the
    working directory otherwise. As the path starts with a slash, the URL
    starts with [file:////]. *)
Theorem replace_path_local (w : BlogEditor.t) (alt path : text) :
  os_path.isabs cwd = true ->
  is_url path = false ->
  exists abs_path,
    replace_path cwd w alt path
    = py "![" ++ alt ++ py "](" ++ py "file:///" ++ abs_path ++ py ")"
    /\ Py.startswith (py "file:////") (py "file:///" ++ abs_path) = true
    /\ abs_path
       = os_path.abspath cwd
           (if Py.startswith (py "./") path || Py.startswith (py "../") path
            then os_path.join (os_path.dirname (save_path w)) path
            else path).
Proof.
  intros Hcwd Hurl. eexists. split; [|split; [|reflexivity]].
  - unfold replace_path. unfold is_url in Hurl. rewrite Hurl.
    change (py "/") with [os_path.sep]. rewrite replace_same.
    rewrite <- !app_assoc. do 3 f_equal.
    by destruct (Py.startswith (py "./") path
                 || Py.startswith (py "../") path).
  - pose proof (abspath_abs
                  (if Py.startswith (py "./") path
                      || Py.startswith (py "../") path
                   then os_path.join (os_path.dirname (save_path w)) path
                   else path) Hcwd) as Habs.
    unfold os_path.isabs in Habs.
    destruct (os_path.abspath cwd _) as [|c p]; [done|].
    cbn [Py.startswith] in Habs. apply andb_true_iff in Habs as [Hc _].
    apply N.eqb_eq in Hc as <-. done.
Qed.

End PreviewExtras.

Lemma path_to_url_urls_witness :
  BlogEditor.path_to_url (py "/home/user") sample_window
    (py "see ![a](https://example.com/a.png) and ![b](file:///tmp/b.png)")
  = py "see ![a](https://example.com/a.png) and ![b](file:///tmp/b.png)".
Proof.
  apply (path_to_url_urls (py "/home/user") sample_window).
  vm_compute. repeat constructor.
Defined.

Lemma replace_path_local_witness :
  exists abs_path,
    BlogEditor.replace_path (py "/home/user") sample_window (py "a")
      (py "img/a.png")
    = py "![" ++ py "a" ++ py "](" ++ py "file:///" ++ abs_path ++ py ")"
    /\ Py.startswith (py "file:////") (py "file:///" ++ abs_path) = true
    /\ abs_path = py "/home/user/img/a.png".
Proof.
  destruct (replace_path_local (py "/home/user") sample_window (py "a")
              (py "img/a.png")) as (abs_path & H1 & H2 & H3);
    [reflexivity..|].
  exists abs_path. split; [done|]. split; [done|]. rewrite H3.
  vm_compute. reflexivity.
Defined.

(** ** The autosaver: writing and restoring *)

Section AutoSaveExtras.

Import AutoSaver.

Variable json_text : gmap string jval -> text.

Lemma current_metadata_nonempty (w : BlogEditor.t) : current_metadata w <> ∅.
Proof. unfold current_metadata. apply insert_non_empty. Qed.

Lemma try_restore_written (content : text) (metadata : gmap string jval)
  (lc : text) (lm : gmap string jval) (now : Z)
  (dir : gmap string (Z * recovery_file)) :
  try_restore json_text
    (Saver lc lm
       (<["metadata.json"%string := (now, MetadataJson metadata)]>
          (<["content.md"%string := (now, ContentMd content)]> dir)))
  = Some (io.universal_newlines content, metadata).
Proof.
  unfold try_restore. cbn [auto_save_dir].
  rewrite lookup_insert_eq, lookup_insert_ne by done.
  by rewrite lookup_insert_eq.
Qed.

(** X13. After a tick whose writes go through, [try_restore] gives back
    the metadata the editor had at that tick and its content as a text file
    is read: with [\r\n] and [\r] as [\n], so the content itself when it has
    no carriage return. This holds for a new saver and for one whose
    recovery files hold its last snapshot, also when the tick had nothing to
    write. *)
Theorem auto_save_then_restore (now : Z) (w : BlogEditor.t)
  (s : AutoSaver.t) :
  last_metadata s = ∅
  \/ try_restore json_text s
     = Some (io.universal_newlines (last_content s), last_metadata s) ->
  try_restore json_text (auto_save NoFault now w s).1.1
  = Some (io.universal_newlines
            (MarkdownEditor.toPlainText (BlogEditor.content_input w)),
          current_metadata w)
  /\ last_content (auto_save NoFault now w s).1.1
     = MarkdownEditor.toPlainText (BlogEditor.content_input w)
  /\ last_metadata (auto_save NoFault now w s).1.1 = current_metadata w
  /\ (13 ∉ MarkdownEditor.toPlainText (BlogEditor.content_input w) ->
      try_restore json_text (auto_save NoFault now w s).1.1
      = Some (MarkdownEditor.toPlainText (BlogEditor.content_input w),
              current_metadata w)).
Proof.
  intros Hs.
  assert (try_restore json_text (auto_save NoFault now w s).1.1
          = Some (io.universal_newlines
                    (MarkdownEditor.toPlainText (BlogEditor.content_input w)),
                  current_metadata w)
          /\ last_content (auto_save NoFault now w s).1.1
             = MarkdownEditor.toPlainText (BlogEditor.content_input w)
          /\ last_metadata (auto_save NoFault now w s).1.1
             = current_metadata w) as (Hr & Hc & Hm).
  { unfold auto_save. case_bool_decide as Hchanged; cbn [fst].
    - by rewrite try_restore_written.
    - assert (MarkdownEditor.toPlainText (BlogEditor.content_input w)
              = last_content s /\ current_metadata w = last_metadata s)
        as [Hc Hm].
      { split; [destruct (decide (MarkdownEditor.toPlainText
                                    (BlogEditor.content_input w)
                                  = last_content s))
               |destruct (decide (current_metadata w = last_metadata s))];
          try done; destruct Hchanged; auto. }
      destruct Hs as [Hs|Hs].
      + rewrite <- Hm in Hs. by apply current_metadata_nonempty in Hs.
      + by rewrite Hs, Hc, Hm. }
  split; [done|]. split; [done|]. split; [done|].
  intros Hcr. by rewrite Hr, (universal_newlines_id _ Hcr).
Qed.

(** X14. A tick that fails does not advance the snapshot, so the next
    tick, the editor unchanged, writes both files again: after it the
    recovery files hold the editor's content and metadata, whichever of the
    two writes had failed, and [try_restore] gives them back, the content as
    a text file is read. *)
Theorem auto_save_failure_retried (fault : write_fault) (now now' : Z)
  (w : BlogEditor.t) (s : AutoSaver.t) :
  fault <> NoFault ->
  MarkdownEditor.toPlainText (BlogEditor.content_input w) <> last_content s
  \/ current_metadata w <> last_metadata s ->
  (auto_save fault now w s).2 = SaveFailed
  /\ (auto_save NoFault now' w (auto_save fault now w s).1.1).1.2
     = [("content.md"%string,
         ContentMd (MarkdownEditor.toPlainText (BlogEditor.content_input w)));
        ("metadata.json"%string, MetadataJson (current_metadata w))]
  /\ try_restore json_text
       (auto_save NoFault now' w (auto_save fault now w s).1.1).1.1
     = Some (io.universal_newlines
               (MarkdownEditor.toPlainText (BlogEditor.content_input w)),
             current_metadata w)
  /\ (13 ∉ MarkdownEditor.toPlainText (BlogEditor.content_input w) ->
      try_restore json_text
        (auto_save NoFault now' w (auto_save fault now w s).1.1).1.1
      = Some (MarkdownEditor.toPlainText (BlogEditor.content_input w),
              current_metadata w)).
Proof.
  intros Hfault Hchanged.
  assert (try_restore json_text
            (auto_save NoFault now' w (auto_save fault now w s).1.1).1.1
          = Some (io.universal_newlines
                    (MarkdownEditor.toPlainText (BlogEditor.content_input w)),
                  current_metadata w)
          /\ (auto_save fault now w s).2 = SaveFailed
          /\ (auto_save NoFault now' w (auto_save fault now w s).1.1).1.2
             = [("content.md"%string,
                 ContentMd
                   (MarkdownEditor.toPlainText (BlogEditor.content_input w)));
                ("metadata.json"%string, MetadataJson (current_metadata w))])
    as (Hr & Hf & Hw).
  { unfold auto_save.
    rewrite (bool_decide_eq_true_2 _ Hchanged).
    destruct fault; [done| |]; cbn [fst snd last_content last_metadata];
      rewrite (bool_decide_eq_true_2 _ Hchanged); cbn [fst snd];
      by rewrite try_restore_written. }
  split; [done|]. split; [done|]. split; [done|].
  intros Hcr. by rewrite Hr, (universal_newlines_id _ Hcr).
Qed.

End AutoSaveExtras.

Lemma auto_save_then_restore_witness :
  AutoSaver.try_restore (fun _ => [])
    (AutoSaver.auto_save AutoSaver.NoFault 60 sample_window
       (AutoSaver.init ∅)).1.1
  = Some (py "draft", AutoSaver.current_metadata sample_window).
Proof.
  destruct (auto_save_then_restore (fun _ => []) 60 sample_window
              (AutoSaver.init ∅)) as (_ & _ & _ & H).
  - by left.
  - apply H. vm_compute. intros Hin.
    repeat (apply elem_of_cons in Hin as [Hin|Hin]; [discriminate Hin|]).
    by apply elem_of_nil in Hin.
Defined.

Lemma auto_save_failure_retried_witness :
  (AutoSaver.auto_save AutoSaver.MetadataWriteFails 60 sample_window
     (AutoSaver.init ∅)).2 = AutoSaver.SaveFailed.
Proof.
  apply (auto_save_failure_retried (fun _ => [])
           AutoSaver.MetadataWriteFails 60 120 sample_window
           (AutoSaver.init ∅)).
  - discriminate.
  - right. apply current_metadata_nonempty.
Defined.

(** ** The recent files *)

Section RecentFilesExtras.

Import RecentFiles.




End RecentFilesExtras.


(** ** The quality loop of the image compressor *)

Section CompressorExtras.

Import ImageCompressor.

Variable size_at : Z -> Z.

Lemma lower_quality_spec (fuel : nat) (quality : Z) :
  (quality - 30 <= Z.of_nat fuel)%Z ->
  exists q,
    lower_quality size_at fuel quality = Some q
    /\ (q <= quality)%Z
    /\ (exists k : nat, quality = q + 5 * Z.of_nat k)%Z
    /\ (q = quality \/ 25 < q)%Z
    /\ (size_at q <= max_file_size \/ q <= 30)%Z.
Proof.
  revert quality. induction fuel as [|fuel IH]; intros quality Hfuel;
    cbn [lower_quality];
    destruct (max_file_size <? size_at quality)%Z eqn:Hsize;
    destruct (30 <? quality)%Z eqn:Hq; cbn [andb];
    try apply Z.ltb_lt in Hq; try apply Z.ltb_ge in Hq;
    try apply Z.ltb_ge in Hsize; try lia;
    try (exists quality; split; [done|]; split; [lia|];
         split; [by exists O; lia|]; split; [by left|]; lia).
  destruct (IH (quality - 5)%Z) as (q & Hr & Hle & [k Hk] & Hlow & Hstop);
    [lia|].
  exists q. split; [done|]. split; [lia|].
  split; [exists (S k); lia|]. split; [right; lia|done].
Qed.

(** X16. The compressor lowers the JPEG quality in steps of 5 and never
    below 30: starting from a multiple of 5 between 30 and 85 (85 at first)
    the loop ends, the quality it leaves is again such a multiple, not above
    the one it started from, and the file fits the size limit unless the
    quality has come down to 30. A small input is not compressed and leaves
    the quality as it is. *)
Theorem compress_image_quality (input_size quality : Z) :
  (30 <= quality <= 85)%Z -> (quality mod 5 = 0)%Z ->
  exists compressed q,
    compress_image size_at input_size quality = Some (compressed, q)
    /\ (30 <= q <= quality)%Z /\ (q mod 5 = 0)%Z
    /\ compressed = negb (input_size <=? max_file_size)%Z
    /\ (compressed = false -> q = quality)
    /\ (compressed = true -> size_at q <= max_file_size \/ q = 30)%Z.
Proof.
  intros Hrange Hmod. unfold compress_image.
  destruct (input_size <=? max_file_size)%Z.
  - exists false, quality. by repeat split; try lia.
  - destruct (lower_quality_spec (Z.to_nat (quality - 30)) quality)
      as (q & -> & Hle & [k Hk] & Hlow & Hstop); [lia|].
    assert (q mod 5 = 0)%Z as Hq.
    { replace q with (quality + (- Z.of_nat k) * 5)%Z by lia.
      by rewrite Z.mod_add. }
    assert (30 <= q)%Z.
    { destruct Hlow as [->|Hlow]; [lia|].
      apply Z.mod_divide in Hq as [j ->]; lia. }
    exists true, q. split; [done|]. split; [lia|]. split; [done|].
    split; [done|]. split; [done|].
    intros _. destruct Hstop; [by left|right; lia].
Qed.

End CompressorExtras.

Lemma compress_image_quality_witness :
  exists compressed q,
    ImageCompressor.compress_image (fun q => 10000 * q)%Z 900000 85
    = Some (compressed, q)
    /\ (30 <= q <= 85)%Z.
Proof.
  destruct (compress_image_quality (fun q => 10000 * q)%Z 900000 85)
    as (c & q & H & Hq & _); [lia|done|].
  by exists c, q.
Defined.

(** ** The tag list *)

Section TagExtras.

Import BlogEditor.

(** X17. [add_tag] adds the stripped text of the tag field at the end of
    the list, and only when it is not empty and not in the list: a list
    without duplicates, empty tags or tags with white space at their ends
    stays one, and nothing else in the window changes. *)
Theorem add_tag_keeps_list_clean (tag_input : text) (w : BlogEditor.t) :
  tags_list w `prefix_of` tags_list (add_tag tag_input w).1
  /\ (NoDup (tags_list w) -> NoDup (tags_list (add_tag tag_input w).1))
  /\ (Forall (fun tag => tag <> [] /\ Py.has_outer_space tag = false)
        (tags_list w) ->
      Forall (fun tag => tag <> [] /\ Py.has_outer_space tag = false)
        (tags_list (add_tag tag_input w).1))
  /\ (Py.strip tag_input <> [] ->
      Py.strip tag_input ∈ tags_list (add_tag tag_input w).1)
  /\ set_tags (tags_list w) (add_tag tag_input w).1 = w.
Proof.
  unfold add_tag.
  destruct (Py.truthy (Py.strip tag_input)) eqn:Ht; cbn [andb].
  - case_bool_decide as Hin; cbn [negb fst].
    + split; [done|]. split; [done|]. split; [done|]. split; [done|].
      by destruct w.
    + cbn [set_tags tags_list]. split; [by apply prefix_app_r|].
      split; [|split; [|split]].
      * intros Hnd. apply NoDup_app. split; [done|].
        split; [|apply NoDup_singleton].
        intros x Hx ->%list_elem_of_singleton. done.
      * intros Hall. apply Forall_app. split; [done|].
        apply Forall_singleton. split; [by destruct (Py.strip tag_input)|].
        apply strip_no_outer_space.
      * intros _. apply elem_of_app. right. by apply list_elem_of_singleton.
      * by destruct w.
  - cbn [fst]. split; [done|]. split; [done|]. split; [done|].
    split; [by destruct (Py.strip tag_input)|]. by destruct w.
Qed.

End TagExtras.

(** ** The statistics without letters *)

Section StatisticsExtras.

Import MarkdownEditor.

Variable isalpha : N -> bool.

Lemma split_ws_from_chars (cur s w : text) (c : N) :
  w ∈ Py.split_ws_from cur s -> c ∈ w -> c ∈ cur \/ c ∈ s.
Proof.
  revert cur. induction s as [|a s IH]; intros cur; cbn [Py.split_ws_from].
  - destruct cur as [|x cur]; [by intros ?%elem_of_nil|].
    intros ->%list_elem_of_singleton Hc. left. by apply elem_of_reverse.
  - destruct (Py.isspace a).
    + destruct cur as [|x cur].
      * intros Hw Hc. destruct (IH _ Hw Hc) as [?|?]; [by left|].
        right. by right.
      * intros [->|Hw]%elem_of_cons Hc.
        -- left. by apply elem_of_reverse.
        -- destruct (IH _ Hw Hc) as [Hn|?]; [by apply elem_of_nil in Hn|].
           right. by right.
    + intros Hw Hc. destruct (IH _ Hw Hc) as [[->|?]%elem_of_cons|?].
      * right. by left.
      * by left.
      * right. by right.
Qed.

Lemma chinese_count_zero (t : text) :
  Forall (fun c => c < 0x4e00 \/ 0x9fff < c) t -> chinese_count t = 0%nat.
Proof.
  unfold chinese_count. induction 1 as [|c l Hc _ IH]; [done|].
  cbn [List.filter].
  assert ((0x4e00 <=? c) && (c <=? 0x9fff) = false) as ->; [|done].
  apply andb_false_iff. rewrite !N.leb_gt. lia.
Qed.

Lemma english_words_zero (t : text) :
  Forall (fun c => isalpha c = false) t -> english_words isalpha t = 0%nat.
Proof.
  intros Halpha. unfold english_words. rewrite Forall_forall in Halpha.
  assert (forall w, w ∈ Py.split_ws t -> existsb isalpha w = false) as Hw.
  { intros w Hin. apply not_true_iff_false.
    intros [c [Hc Hic]]%existsb_exists. apply list_elem_of_In in Hc.
    destruct (split_ws_from_chars _ _ _ _ Hin Hc) as [Hn|Ht];
      [by apply elem_of_nil in Hn|].
    rewrite (Halpha c Ht) in Hic. done. }
  induction (Py.split_ws t) as [|w ws IH]; [done|].
  cbn [List.filter]. rewrite (Hw w) by left. apply IH.
  intros w' Hin. apply Hw. by right.
Qed.

(** X18. A text with no letter and no ideograph in it counts for zero
    words, however many tokens it has: numbers and punctuation are not
    words. *)
Theorem word_count_without_letters (e : MarkdownEditor.t) :
  Forall (fun c => isalpha c = false) (toPlainText e) ->
  Forall (fun c => c < 0x4e00 \/ 0x9fff < c) (toPlainText e) ->
  word_count (update_statistics isalpha e) = 0%nat.
Proof.
  intros Halpha Hcjk. rewrite word_count_formula.
  by rewrite chinese_count_zero, english_words_zero.
Qed.

End StatisticsExtras.

Lemma word_count_without_letters_witness :
  MarkdownEditor.word_count
    (MarkdownEditor.update_statistics isalpha_ascii_cjk
       (MarkdownEditor.Editor ∅ None (py "2024 -- 12/31") 0)) = 0%nat.
Proof.
  apply (word_count_without_letters isalpha_ascii_cjk
           (MarkdownEditor.Editor ∅ None (py "2024 -- 12/31") 0));
    vm_compute; repeat constructor.
Defined.

(** ** Saving from the window: [BlogEditor.save_blog] *)

Section SaveBlogExtras.

Import BlogEditor.

Variable yaml_safe_load : text -> option pyval.


Lemma copy_body_images_frame (article_folder : text)
  (image_paths : list text) (disk : gmap text text) (content p : text) :
  (forall img, img ∈ image_paths ->
     p <> os_path.join article_folder (os_path.basename img)) ->
  (copy_body_images article_folder image_paths disk content).1 !! p
  = disk !! p.
Proof.
  revert disk content. induction image_paths as [|img rest IH];
    intros disk content Hp; [done|]. cbn [copy_body_images].
  assert (forall img', img' ∈ rest ->
            p <> os_path.join article_folder (os_path.basename img'))
    as Hrest by (intros img' Hin; apply Hp; by right).
  destruct (_ || _); [by apply IH|].
  unfold copy2. destruct (disk !! img) as [data|]; [|by apply IH].
  case_bool_decide; [by apply IH|]. rewrite IH by done.
  rewrite lookup_insert_ne; [done|]. intros Heq. by apply (Hp img); [left|].
Qed.

(** X19. A post saved from the window is imported again, the file read
    as text, with the body that was written: the text of the editor after
    the image loop, stripped and with its line ends as [\n]. The condition is
    on the frontmatter lines, which are written without any quoting: as
    read, they must hold no [---] and must parse. *)
Theorem save_blog_reimport (disk disk' : gmap text text) (w : BlogEditor.t)
  (article_folder : text) (metadata : pyval) :
  save_blog disk w = (disk', SavedTo article_folder) ->
  FileManager.delimiter_free (io.universal_newlines (frontmatter_lines w))
    = true ->
  yaml_safe_load (nl ++ io.universal_newlines (frontmatter_lines w))
    = Some metadata ->
  article_folder
  = os_path.join (save_path w) (Py.strip (folder_input w))
  /\ FileManager.import_markdown yaml_safe_load (io.read_text disk')
       (os_path.join article_folder (py "index.md"))
     = Ok (Py.strip
             (io.universal_newlines
                (copy_body_images article_folder
                   (re_findall_image
                      (MarkdownEditor.toPlainText (content_input w)))
                   disk (MarkdownEditor.toPlainText (content_input w))).2),
           metadata).
Proof.
  intros Hsave Hfree Hy. unfold save_blog in Hsave.
  destruct (negb (Py.truthy (Py.strip (folder_input w)))); [done|].
  destruct (copy_body_images _ _ disk _) as [disk1 content1] eqn:Hcopy.
  assert (forall d : gmap text text,
            FileManager.import_markdown yaml_safe_load
              (io.read_text
                 (<[os_path.join
                      (os_path.join (save_path w) (Py.strip (folder_input w)))
                      (py "index.md") :=
                      py "---" ++ nl ++ frontmatter_lines w ++ py "---" ++ nl
                      ++ nl ++ content1]> d))
              (os_path.join
                 (os_path.join (save_path w) (Py.strip (folder_input w)))
                 (py "index.md"))
            = Ok (Py.strip (io.universal_newlines content1), metadata))
    as Himport.
  { intros d.
    apply (import_markdown_index_md _ _ _
             (io.universal_newlines (frontmatter_lines w))); [|done..].
    unfold io.read_text.
    by rewrite lookup_fmap, lookup_insert_eq, <- index_md_read. }
  destruct (Py.truthy (image_path w)).
  - destruct (copy2 disk1 _ _) as [disk2|]; [|done].
    injection Hsave as <- <-. split; [done|]. rewrite Hcopy. apply Himport.
  - injection Hsave as <- <-. split; [done|]. rewrite Hcopy. apply Himport.
Qed.


(** X21. [save_blog] does nothing without a folder name. With a cover
    image that cannot be copied it fails, after the image loop: [index.md]
    is not written, and no path is changed but the destinations of the body
    images. *)
Theorem save_blog_failures (disk : gmap text text) (w : BlogEditor.t) :
  (Py.strip (folder_input w) = [] -> save_blog disk w = (disk, NeedFolderName))
  /\ (Py.strip (folder_input w) <> [] ->
      image_path w <> [] ->
      disk !! image_path w = None ->
      (forall img,
         img ∈ re_findall_image (MarkdownEditor.toPlainText (content_input w))
         -> image_path w
            <> os_path.join
                 (os_path.join (save_path w) (Py.strip (folder_input w)))
                 (os_path.basename img)) ->
      (save_blog disk w).2 = SaveFailed
      /\ forall p,
           (forall img,
              img ∈ re_findall_image
                      (MarkdownEditor.toPlainText (content_input w)) ->
              p <> os_path.join
                     (os_path.join (save_path w) (Py.strip (folder_input w)))
                     (os_path.basename img)) ->
           (save_blog disk w).1 !! p = disk !! p).
Proof.
  unfold save_blog. split.
  - by intros ->.
  - intros Hfolder Himg Hmissing Hcover.
    destruct (Py.strip (folder_input w)) as [|c f] eqn:Hf; [done|].
    cbn [Py.truthy negb].
    destruct (copy_body_images _ _ disk _) as [disk1 content1] eqn:Hcopy.
    assert (forall p,
              (forall img,
                 img ∈ re_findall_image
                         (MarkdownEditor.toPlainText (content_input w)) ->
                 p <> os_path.join (os_path.join (save_path w) (c :: f))
                        (os_path.basename img)) ->
              disk1 !! p = disk !! p) as Hframe.
    { intros p Hp.
      replace disk1
        with (copy_body_images (os_path.join (save_path w) (c :: f))
                (re_findall_image
                   (MarkdownEditor.toPlainText (content_input w)))
                disk (MarkdownEditor.toPlainText (content_input w))).1
        by by rewrite Hcopy.
      by apply copy_body_images_frame. }
    destruct (image_path w) as [|c' ip] eqn:Hip; [done|].
    cbn [Py.truthy]. unfold copy2.
    rewrite (Hframe (c' :: ip) Hcover), Hmissing. by split.
Qed.

End SaveBlogExtras.

Lemma save_blog_reimport_witness :
  FileManager.import_markdown
    (fun s => Some (PyList (PyStr <$> Py.split nl (length s) s)))
    (io.read_text (BlogEditor.save_blog ∅ sample_window).1)
    (os_path.join (py "/articles/post1/post1") (py "index.md"))
  = Ok (py "draft",
        PyList
          (PyStr <$>
             [[]; py "title: 'Title'"; py "publishDate: 2024-01-01";
              py "description: ''"; py "tags:"; py "  - a";
              py "language: 'English'";
              py "heroImage: { src: '', color: '#FFFFFF' }"; []])).
Proof.
  destruct (save_blog_reimport
              (fun s => Some (PyList (PyStr <$> Py.split nl (length s) s)))
              ∅ (BlogEditor.save_blog ∅ sample_window).1 sample_window
              (py "/articles/post1/post1")
              (PyList
                 (PyStr <$>
                    [[]; py "title: 'Title'"; py "publishDate: 2024-01-01";
                     py "description: ''"; py "tags:"; py "  - a";
                     py "language: 'English'";
                     py "heroImage: { src: '', color: '#FFFFFF' }"; []])))
    as [_ H]; [vm_compute; reflexivity..|].
  rewrite H. vm_compute. reflexivity.
Defined.

